(** * SDL_GC: game-controller input backend (Source/Core/InputCommon/ControllerInterface/SDL_GC)

    A shallow embedding of [SDL_GC.cpp] / [SDL_GC.h]: the static control
    catalogs, the control objects (Button, Axis, Trigger, Motor, Battery),
    the [Device] adapter, and the hotplug coordinator ([Init], [DeInit],
    [PopulateDevices], [HandleEventAndContinue], [OpenAndAddDevice]).

    - C++ integers are [Z] with the conversions written out ([to_u8],
      [to_Uint16], [to_Uint32]); [int / int] is [Z.quot].
    - [ControlState] is C++ [double], embedded as Rocq's primitive binary64
      [float], so that [1.0], [0.5], [0.3] and products are bit-exact.
    - The driver (SDL), the host registry ([g_controller_interface]) and the
      file-scope statics live in one explicit [World] that every operation
      threads; every observable call on a collaborator is appended to
      [trace].
    - Undefined behaviour and non-termination are [None]. *)

From Stdlib Require Import ZArith List Lia Bool String Ascii.
From Stdlib Require Import PrimFloat FloatOps SpecFloat Uint63.
Import ListNotations.
Open Scope string_scope.
Open Scope list_scope.
Open Scope Z_scope.
#[local] Set Warnings "-inexact-float".

(** ** Machine integers and [double] *)

Definition to_u8 (z : Z) : Z := z mod 2 ^ 8.
Definition to_Uint16 (z : Z) : Z := z mod 2 ^ 16.
Definition to_Uint32 (z : Z) : Z := z mod 2 ^ 32.

Definition ControlState := float.

(** Conversion [int -> double]; exact for the 32-bit values used here. *)
Definition ControlState_of_int (z : Z) : ControlState :=
  if z <? 0 then (- of_uint63 (Uint63.of_Z (- z)))%float
  else of_uint63 (Uint63.of_Z z).

(** Truncation towards zero of a binary64 value; [None] for NaN and
    infinities. *)
Definition SF_trunc (f : spec_float) : option Z :=
  match f with
  | S754_zero _ => Some 0
  | S754_finite s m e =>
      let a := if 0 <=? e then Z.shiftl (Zpos m) e else Z.shiftr (Zpos m) (- e) in
      Some (if s then - a else a)
  | S754_infinity _ | S754_nan => None
  end.

(** The cast [(Uint16)x] of a [double]: the value is truncated; the cast is
    undefined when the truncated value is not representable in 16 bits. *)
Definition Uint16_of_double (x : ControlState) : option Z :=
  match SF_trunc (Prim2SF x) with
  | Some z => if (0 <=? z) && (z <=? 65535) then Some z else None
  | None => None
  end.

(** [|x - y| <= 0.001]: the reading of "approximately" used below. *)
Definition approx_eq (x y : ControlState) : bool :=
  (abs (x - y) <=? 0.001)%float.

(** ** Driver vocabulary (SDL headers)

    The enumerator spellings are the ones the source file uses. *)

Inductive SDL_GameControllerButton : Set :=
| SDL_CONTROLLER_BUTTON_A
| SDL_CONTROLLER_BUTTON_B
| SDL_CONTROLLER_BUTTON_X
| SDL_CONTROLLER_BUTTON_Y
| SDL_CONTROLLER_BUTTON_UP
| SDL_CONTROLLER_BUTTON_DONW
| SDL_CONTROLLER_BUTTON_LEFT
| SDL_CONTROLLER_BUTTON_RIGHT
| SDL_CONTROLLER_BUTTON_START
| SDL_CONTROLLER_BUTTON_BACK
| SDL_CONTROLLER_BUTTON_LEFTSHOULDER
| SDL_CONTROLLER_BUTTON_RIGHTSHOULDER
| SDL_CONTROLLER_BUTTON_GUIDE
| SDL_CONTROLLER_BUTTON_LEFTSTICK
| SDL_CONTROLLER_BUTTON_RIGHTSTICK
| SDL_CONTROLLER_BUTTON_TOUCHPAD.

Inductive SDL_GameControllerAxis : Set :=
| SDL_CONTROLLER_AXIS_TRIGGERLEFT
| SDL_CONTROLLER_AXIS_TRIGGERRIGHT
| SDL_CONTROLLER_AXIS_LEFTX
| SDL_CONTROLELR_AXIS_LEFTY
| SDL_CONTROLLER_AXIS_RIGHTX
| SDL_CONTROLLER_AXIS_RIGHTY.

(** SDL_joystick.h *)
Definition SDL_JOYSTICK_AXIS_MAX : Z := 32767.
Definition SDL_JOYSTICK_AXIS_MIN : Z := -32768.

(** [SDL_JoystickPowerLevel] is a C enum; a value of the type is an [int]. *)
Definition SDL_JoystickPowerLevel := Z.
Definition SDL_JOYSTICK_POWER_UNKNOWN : SDL_JoystickPowerLevel := -1.
Definition SDL_JOYSTICK_POWER_EMPTY : SDL_JoystickPowerLevel := 0.
Definition SDL_JOYSTICK_POWER_LOW : SDL_JoystickPowerLevel := 1.
Definition SDL_JOYSTICK_POWER_MEDIUM : SDL_JoystickPowerLevel := 2.
Definition SDL_JOYSTICK_POWER_FULL : SDL_JoystickPowerLevel := 3.
Definition SDL_JOYSTICK_POWER_WIRED : SDL_JoystickPowerLevel := 4.
Definition SDL_JOYSTICK_POWER_MAX : SDL_JoystickPowerLevel := 5.

(** SDL_events.h *)
Definition SDL_CONTROLLERDEVICEADDED : Z := 0x653.
Definition SDL_CONTROLLERDEVICEREMOVED : Z := 0x654.
Definition SDL_USEREVENT : Z := 0x8000.

(** [SDL_Event]: the [type] tag and the [which] field, which [jdevice] and
    [cdevice] share. *)
Record SDL_Event : Set := { e_type : Z; e_which : Z }.

(** One attached joystick as the driver sees it. *)
Record Joystick : Type := {
  js_is_gamecontroller : bool;
  js_name : string;
  js_instance_id : Z;
  js_axis : SDL_GameControllerAxis -> Z;
  js_button : SDL_GameControllerButton -> Z;
  js_power : SDL_JoystickPowerLevel
}.

(** [SDL_GameController*] / [SDL_Joystick*]: a non-null handle is the slot of
    the device in the driver's table; a null pointer is [None]. *)
Definition SDL_GameController := nat.
Definition SDL_Joystick := nat.

Record SDL_version : Set := { major : Z; minor : Z; patch : Z }.

(** The driver.  [sdl_init_result] and [sdl_register_result] are what
    [SDL_Init] and [SDL_RegisterEvents(2)] return when called: [SDL_Init]
    returns [0] on success and a negative error code on failure;
    [SDL_RegisterEvents] returns the first allocated id, or [(Uint32)-1]. *)
Record SDL : Type := {
  sdl_init_result : Z;
  sdl_register_result : Z;
  sdl_linked : SDL_version;
  sdl_joysticks : list Joystick;
  sdl_queue : list SDL_Event
}.

Definition SDL_NumJoysticks (s : SDL) : Z := Z.of_nat (List.length (sdl_joysticks s)).

Definition SDL_GameControllerOpen (s : SDL) (index : Z) : option SDL_GameController :=
  if index <? 0 then None
  else match nth_error (sdl_joysticks s) (Z.to_nat index) with
       | Some js => if js_is_gamecontroller js then Some (Z.to_nat index) else None
       | None => None
       end.

Definition SDL_GameControllerGetJoystick (gc : SDL_GameController) : SDL_Joystick := gc.

Definition SDL_GameControllerName (s : SDL) (gc : SDL_GameController) : string :=
  match nth_error (sdl_joysticks s) gc with
  | Some js => js_name js
  | None => ""
  end.

Definition SDL_GameControllerGetAxis (s : SDL) (gc : SDL_GameController)
    (axis : SDL_GameControllerAxis) : Z :=
  match nth_error (sdl_joysticks s) gc with
  | Some js => js_axis js axis
  | None => 0
  end.

Definition SDL_GameControllerGetButton (s : SDL) (gc : SDL_GameController)
    (button : SDL_GameControllerButton) : Z :=
  match nth_error (sdl_joysticks s) gc with
  | Some js => js_button js button
  | None => 0
  end.

Definition SDL_JoystickCurrentPowerLevel (s : SDL) (j : SDL_Joystick)
    : SDL_JoystickPowerLevel :=
  match nth_error (sdl_joysticks s) j with
  | Some js => js_power js
  | None => SDL_JOYSTICK_POWER_UNKNOWN
  end.

Definition SDL_JoystickInstanceID (s : SDL) (j : SDL_Joystick) : Z :=
  match nth_error (sdl_joysticks s) j with
  | Some js => js_instance_id js
  | None => -1
  end.

(** ** Control catalogs *)

Record ButtonDef : Set := { ButtonDef_name : string; ButtonDef_bitmask : SDL_GameControllerButton }.
Record AxisDef : Set := { AxisDef_name : string; AxisDef_bitmask : SDL_GameControllerAxis }.

Definition named_buttons : list ButtonDef :=
  [ {| ButtonDef_name := "Button A"; ButtonDef_bitmask := SDL_CONTROLLER_BUTTON_A |};
    {| ButtonDef_name := "Button B"; ButtonDef_bitmask := SDL_CONTROLLER_BUTTON_B |};
    {| ButtonDef_name := "Button X"; ButtonDef_bitmask := SDL_CONTROLLER_BUTTON_X |};
    {| ButtonDef_name := "Button Y"; ButtonDef_bitmask := SDL_CONTROLLER_BUTTON_Y |};
    {| ButtonDef_name := "Pad N"; ButtonDef_bitmask := SDL_CONTROLLER_BUTTON_UP |};
    {| ButtonDef_name := "Pad S"; ButtonDef_bitmask := SDL_CONTROLLER_BUTTON_DONW |};
    {| ButtonDef_name := "Pad W"; ButtonDef_bitmask := SDL_CONTROLLER_BUTTON_LEFT |};
    {| ButtonDef_name := "Pad E"; ButtonDef_bitmask := SDL_CONTROLLER_BUTTON_RIGHT |};
    {| ButtonDef_name := "Start"; ButtonDef_bitmask := SDL_CONTROLLER_BUTTON_START |};
    {| ButtonDef_name := "Back"; ButtonDef_bitmask := SDL_CONTROLLER_BUTTON_BACK |};
    {| ButtonDef_name := "Shoulder L"; ButtonDef_bitmask := SDL_CONTROLLER_BUTTON_LEFTSHOULDER |};
    {| ButtonDef_name := "Shoulder R"; ButtonDef_bitmask := SDL_CONTROLLER_BUTTON_RIGHTSHOULDER |};
    {| ButtonDef_name := "Guide"; ButtonDef_bitmask := SDL_CONTROLLER_BUTTON_GUIDE |};
    {| ButtonDef_name := "Thumb L"; ButtonDef_bitmask := SDL_CONTROLLER_BUTTON_LEFTSTICK |};
    {| ButtonDef_name := "Thumb R"; ButtonDef_bitmask := SDL_CONTROLLER_BUTTON_RIGHTSTICK |};
    {| ButtonDef_name := "Touchpad"; ButtonDef_bitmask := SDL_CONTROLLER_BUTTON_TOUCHPAD |} ].

Definition named_trigger_axis : list AxisDef :=
  [ {| AxisDef_name := "Trigger L"; AxisDef_bitmask := SDL_CONTROLLER_AXIS_TRIGGERLEFT |};
    {| AxisDef_name := "Trigger R"; AxisDef_bitmask := SDL_CONTROLLER_AXIS_TRIGGERRIGHT |} ].

Definition named_stick_axis : list AxisDef :=
  [ {| AxisDef_name := "Left X"; AxisDef_bitmask := SDL_CONTROLLER_AXIS_LEFTX |};
    {| AxisDef_name := "Left Y"; AxisDef_bitmask := SDL_CONTROLELR_AXIS_LEFTY |};
    {| AxisDef_name := "Right X"; AxisDef_bitmask := SDL_CONTROLLER_AXIS_RIGHTX |};
    {| AxisDef_name := "Right Y"; AxisDef_bitmask := SDL_CONTROLLER_AXIS_RIGHTY |} ].

Definition named_motors : list string := [ "Motor L"; "Motor R" ].

(** [std::array::operator[]] with a [u8] index; out of range is undefined. *)
Definition at_index {A : Type} (l : list A) (i : Z) : option A :=
  if i <? 0 then None else nth_error l (Z.to_nat i).

(** ** Control objects

    [Core::Device::Input] and [Core::Device::Output] as closed variants.  A
    [Battery] holds a reference to its device's [m_battery_level]; a [Motor]
    holds a pointer to its parent device: both are resolved against the
    owning [Device] when the control is used. *)

Inductive Input : Set :=
| Button (m_index : Z) (m_gc : SDL_GameController)
| Axis (m_index : Z) (m_gc : SDL_GameController) (m_range : Z)
| Trigger (m_index : Z) (m_gc : SDL_GameController) (m_range : Z)
| Battery.

Inductive Output : Set :=
| Motor (m_range : Z) (m_index : Z).

(** The C++ constructors, with the conversions of their [u8] and [Uint16]
    parameters. *)
Definition new_Button (index : Z) (gc : SDL_GameController) : Input :=
  Button (to_u8 index) gc.
Definition new_Axis (index : Z) (gc : SDL_GameController) (range : Z) : Input :=
  Axis (to_u8 index) gc (to_Uint16 range).
Definition new_Trigger (index : Z) (gc : SDL_GameController) (range : Z) : Input :=
  Trigger (to_u8 index) gc (to_Uint16 range).
Definition new_Motor (index : Z) (range : Z) : Output :=
  Motor (to_Uint16 range) (to_u8 index).

Definition Button_GetName (m_index : Z) : option string :=
  option_map ButtonDef_name (at_index named_buttons m_index).

(** [ControlState(SDL_GameControllerGetButton(..)) > 0], returned as a
    [ControlState]. *)
Definition Button_GetState (s : SDL) (m_index : Z) (m_gc : SDL_GameController)
    : option ControlState :=
  match at_index named_buttons m_index with
  | Some def =>
      let pressed :=
        (0 <? ControlState_of_int (SDL_GameControllerGetButton s m_gc (ButtonDef_bitmask def)))%float in
      Some (if pressed then 1%float else 0%float)
  | None => None
  end.

(** [m_range] is a [Uint16]; in [m_range < 0] it is promoted to [int]. *)
Definition Axis_GetName (m_index m_range : Z) : option string :=
  option_map
    (fun def => String.append (AxisDef_name def) (if m_range <? 0 then "-" else "+"))
    (at_index named_stick_axis m_index).

(** [ControlState(sample / m_range)]: both operands are promoted to [int],
    the quotient is truncated, and only then converted to [double]. *)
Definition Axis_GetState (s : SDL) (m_index : Z) (m_gc : SDL_GameController) (m_range : Z)
    : option ControlState :=
  match at_index named_stick_axis m_index with
  | Some def =>
      if m_range =? 0 then None
      else Some (ControlState_of_int
                   (Z.quot (SDL_GameControllerGetAxis s m_gc (AxisDef_bitmask def)) m_range))
  | None => None
  end.

Definition Trigger_GetName (m_index : Z) : option string :=
  option_map AxisDef_name (at_index named_trigger_axis m_index).

Definition Trigger_GetState (s : SDL) (m_index : Z) (m_gc : SDL_GameController) (m_range : Z)
    : option ControlState :=
  match at_index named_trigger_axis m_index with
  | Some def =>
      if m_range =? 0 then None
      else Some (ControlState_of_int
                   (Z.quot (SDL_GameControllerGetAxis s m_gc (AxisDef_bitmask def)) m_range))
  | None => None
  end.

Definition Motor_GetName (m_index : Z) : option string :=
  at_index named_motors m_index.

Definition Battery_GetName : string := "Battery".
Definition Battery_GetState (m_level : ControlState) : ControlState := m_level.
Definition Battery_IsDetectable : bool := false.

(** Virtual dispatch; [m_level] is the owning device's battery level. *)
Definition Input_GetName (i : Input) : option string :=
  match i with
  | Button m_index _ => Button_GetName m_index
  | Axis m_index _ m_range => Axis_GetName m_index m_range
  | Trigger m_index _ _ => Trigger_GetName m_index
  | Battery => Some Battery_GetName
  end.

Definition Input_GetState (s : SDL) (m_level : ControlState) (i : Input)
    : option ControlState :=
  match i with
  | Button m_index m_gc => Button_GetState s m_index m_gc
  | Axis m_index m_gc m_range => Axis_GetState s m_index m_gc m_range
  | Trigger m_index m_gc m_range => Trigger_GetState s m_index m_gc m_range
  | Battery => Some (Battery_GetState m_level)
  end.

(** ** The device adapter *)

Module MotorVal.
Record t : Set := { left : Z; right : Z }.
End MotorVal.

Record Device : Set := {
  motor_val : MotorVal.t;
  m_controller : SDL_GameController;
  m_joystick : SDL_Joystick;
  m_name : string;
  m_battery_level : ControlState;
  m_index : Z;
  (* Core::Device *)
  m_inputs : list Input;
  m_outputs : list Output
}.

Definition with_motor_val (v : MotorVal.t) (d : Device) : Device :=
  {| motor_val := v; m_controller := m_controller d; m_joystick := m_joystick d;
     m_name := m_name d; m_battery_level := m_battery_level d; m_index := m_index d;
     m_inputs := m_inputs d; m_outputs := m_outputs d |}.

Definition with_battery_level (l : ControlState) (d : Device) : Device :=
  {| motor_val := motor_val d; m_controller := m_controller d; m_joystick := m_joystick d;
     m_name := m_name d; m_battery_level := l; m_index := m_index d;
     m_inputs := m_inputs d; m_outputs := m_outputs d |}.

(** Modelled from the spec: [Core::Device::Inputs] (CoreDevice.h is not part
    of the sources at hand); the adapter's input controls, in the order they
    were added. *)
Definition Inputs (d : Device) : list Input := m_inputs d.

(** Modelled from the spec: [Core::Device::Outputs]; the adapter's output
    controls, in the order they were added. *)
Definition Outputs (d : Device) : list Output := m_outputs d.

(** Modelled from the spec: [Core::Device::AddInput]; the control becomes one
    more input of the adapter. *)
Definition AddInput (i : Input) (d : Device) : Device :=
  {| motor_val := motor_val d; m_controller := m_controller d; m_joystick := m_joystick d;
     m_name := m_name d; m_battery_level := m_battery_level d; m_index := m_index d;
     m_inputs := m_inputs d ++ [i]; m_outputs := m_outputs d |}.

(** Modelled from the spec: [Core::Device::AddOutput]; the control becomes
    one more output of the adapter. *)
Definition AddOutput (o : Output) (d : Device) : Device :=
  {| motor_val := motor_val d; m_controller := m_controller d; m_joystick := m_joystick d;
     m_name := m_name d; m_battery_level := m_battery_level d; m_index := m_index d;
     m_inputs := m_inputs d; m_outputs := m_outputs d ++ [o] |}.

(** Modelled from the spec: [Core::Device::AddAnalogInputs]; "axis catalog
    entries each produce two Control Objects (negative and positive
    polarity)": the two controls are added, negative polarity first. *)
Definition AddAnalogInputs (low high : Input) (d : Device) : Device :=
  AddInput high (AddInput low d).

(** Blank characters: space, tab, line feed, carriage return. *)
Definition is_blank (c : ascii) : bool :=
  match c with
  | " "%char | "009"%char | "010"%char | "013"%char => true
  | _ => false
  end.

Fixpoint drop_blanks (l : list ascii) : list ascii :=
  match l with
  | c :: l' => if is_blank c then drop_blanks l' else l
  | [] => []
  end.

(** Modelled from the spec: [StripSpaces] (Common/StringUtil.h is not part
    of the sources at hand); the display name is "trimmed": the blanks at both
    ends are dropped. *)
Definition StripSpaces (s : string) : string :=
  string_of_list_ascii
    (rev (drop_blanks (rev (drop_blanks (list_ascii_of_string s))))).

(** [for (size_t i = 0; i != size; ++i) body(i)] *)
Definition for_size (size : nat) (body : Z -> Device -> Device) (d : Device) : Device :=
  fold_left (fun acc i => body (Z.of_nat i) acc) (seq 0 size) d.

(** The body of [Device::Device], generic in the four catalog sizes.
    [uninit] is the indeterminate content of [motor_val], which the
    constructor does not initialise. *)
Definition Device_build (nb nt na nm : nat) (uninit : MotorVal.t) (s : SDL)
    (controller : SDL_GameController) (index : Z) : Device :=
  let d0 :=
    {| motor_val := uninit; m_controller := controller;
       m_joystick := SDL_GameControllerGetJoystick controller;
       m_name := StripSpaces (SDL_GameControllerName s controller);
       m_battery_level := 0%float; m_index := to_u8 index;
       m_inputs := []; m_outputs := [] |} in
  (* Buttons *)
  let d1 := for_size nb (fun i => AddInput (new_Button i controller)) d0 in
  (* Triggers *)
  let d2 := for_size nt (fun i => AddInput (new_Trigger i controller SDL_JOYSTICK_AXIS_MAX)) d1 in
  (* Axes *)
  let d3 :=
    for_size na
      (fun i => AddAnalogInputs (new_Axis i controller SDL_JOYSTICK_AXIS_MIN)
                                (new_Axis i controller SDL_JOYSTICK_AXIS_MAX)) d2 in
  (* Rumble motors *)
  let d4 := for_size nm (fun i => AddOutput (new_Motor i 0xFFFF)) d3 in
  (* Battery level *)
  AddInput Battery d4.

Definition Device_Device (uninit : MotorVal.t) (s : SDL)
    (controller : SDL_GameController) (index : Z) : Device :=
  Device_build (List.length named_buttons) (List.length named_trigger_axis)
               (List.length named_stick_axis) (List.length named_motors)
               uninit s controller index.

Definition Device_GetName (d : Device) : string := m_name d.
Definition Device_GetSource : string := "SDL_gamecontroller".
Definition Device_GetPreferredId (d : Device) : option Z := Some (m_index d).
Definition Device_GetSortPriority : Z := -1.
Definition Device_GetSDLJoystick (d : Device) : SDL_Joystick := m_joystick d.

(** ** The world: driver, host registry, file-scope statics *)

Inductive SDL_Hint : Set :=
| SDL_HINT_JOYSTICK_HIDAPI_PS4_RUMBLE
| SDL_HINT_JOYSTICK_HIDAPI_PS5_RUMBLE
| SDL_HINT_GAMECONTROLLER_USE_BUTTON_LABELS
| SDL_HINT_JOYSTICK_HIDAPI_JOY_CONS.

(** Calls on the collaborators, in the order they are made. *)
Inductive Effect : Set :=
| Call_ERROR_LOG (msg : string)
| Call_SDL_SetHint (name : SDL_Hint) (value : string)
| Call_SDL_Quit
| Call_SDL_GameControllerUpdate
| Call_SDL_GameControllerRumble (gc : SDL_GameController) (low high : Z) (duration_ms : Z)
| Call_SDL_PushEvent (e : SDL_Event)
| Call_AddDevice (d : Device)
| Call_RemoveDevice (which : Z)
| Call_PlatformPopulateDevices
| Call_s_init_event_Set.

(** Modelled from the spec: a device held by the host registry is one of
    this backend's adapters, or a device of another source
    ([dynamic_cast<const Device*>] is null on it). *)
Inductive CoreDevice : Set :=
| SDL_GC_Device (d : Device)
| OtherDevice (source : string).

Definition CoreDevice_GetSource (c : CoreDevice) : string :=
  match c with
  | SDL_GC_Device _ => Device_GetSource
  | OtherDevice source => source
  end.

(** Modelled from the spec: the host registry [g_controller_interface]
    (ControllerInterface.h is not part of the sources at hand); it owns the
    live device list and may be "not yet accepting devices". *)
Record ControllerInterface : Set := {
  ci_accepting : bool;
  ci_devices : list CoreDevice
}.

(** [std::thread]: default-constructed or joined, running the wait loop, or
    returned from its body and not joined yet. *)
Inductive Thread : Set := NotStarted | InWaitLoop | Finished.

Definition joinable (t : Thread) : bool :=
  match t with
  | NotStarted => false
  | InWaitLoop | Finished => true
  end.

Record World : Type := {
  sdl : SDL;
  g_controller_interface : ControllerInterface;
  uninit_storage : MotorVal.t;
  trace : list Effect;
  s_stop_event_type : Z;
  s_populate_event_type : Z;
  s_hotplug_thread : Thread
}.

Definition log (e : Effect) (w : World) : World :=
  {| sdl := sdl w; g_controller_interface := g_controller_interface w;
     uninit_storage := uninit_storage w; trace := trace w ++ [e];
     s_stop_event_type := s_stop_event_type w;
     s_populate_event_type := s_populate_event_type w;
     s_hotplug_thread := s_hotplug_thread w |}.

Definition with_devices (l : list CoreDevice) (w : World) : World :=
  {| sdl := sdl w;
     g_controller_interface :=
       {| ci_accepting := ci_accepting (g_controller_interface w); ci_devices := l |};
     uninit_storage := uninit_storage w; trace := trace w;
     s_stop_event_type := s_stop_event_type w;
     s_populate_event_type := s_populate_event_type w;
     s_hotplug_thread := s_hotplug_thread w |}.

Definition with_queue (q : list SDL_Event) (w : World) : World :=
  {| sdl := {| sdl_init_result := sdl_init_result (sdl w);
               sdl_register_result := sdl_register_result (sdl w);
               sdl_linked := sdl_linked (sdl w);
               sdl_joysticks := sdl_joysticks (sdl w);
               sdl_queue := q |};
     g_controller_interface := g_controller_interface w;
     uninit_storage := uninit_storage w; trace := trace w;
     s_stop_event_type := s_stop_event_type w;
     s_populate_event_type := s_populate_event_type w;
     s_hotplug_thread := s_hotplug_thread w |}.

Definition with_event_types (stop populate : Z) (w : World) : World :=
  {| sdl := sdl w; g_controller_interface := g_controller_interface w;
     uninit_storage := uninit_storage w; trace := trace w;
     s_stop_event_type := stop; s_populate_event_type := populate;
     s_hotplug_thread := s_hotplug_thread w |}.

Definition with_thread (t : Thread) (w : World) : World :=
  {| sdl := sdl w; g_controller_interface := g_controller_interface w;
     uninit_storage := uninit_storage w; trace := trace w;
     s_stop_event_type := s_stop_event_type w;
     s_populate_event_type := s_populate_event_type w;
     s_hotplug_thread := t |}.

(** Modelled from the spec: the host framework finishes its own start-up;
    from then on the registry accepts devices. *)
Definition host_starts_accepting (w : World) : World :=
  {| sdl := sdl w;
     g_controller_interface :=
       {| ci_accepting := true; ci_devices := ci_devices (g_controller_interface w) |};
     uninit_storage := uninit_storage w; trace := trace w;
     s_stop_event_type := s_stop_event_type w;
     s_populate_event_type := s_populate_event_type w;
     s_hotplug_thread := s_hotplug_thread w |}.

(** Modelled from the spec: [ControllerInterface::AddDevice]; the adapter
    enters the live device list, unless "the registry is not yet accepting
    devices", in which case the registration fails and nothing changes. *)
Definition AddDevice (d : Device) (w : World) : World :=
  let w' := log (Call_AddDevice d) w in
  if ci_accepting (g_controller_interface w')
  then with_devices (ci_devices (g_controller_interface w') ++ [SDL_GC_Device d]) w'
  else w'.

(** Modelled from the spec: [ControllerInterface::RemoveDevice]; "remove
    whichever registered adapter" satisfies the predicate. *)
Definition RemoveDevice (which : Z) (callback : CoreDevice -> bool) (w : World) : World :=
  let w' := log (Call_RemoveDevice which) w in
  with_devices (filter (fun c => negb (callback c)) (ci_devices (g_controller_interface w'))) w'.

(** Modelled from the spec: [ControllerInterface::PlatformPopulateDevices];
    "atomically clears the live device set tagged with this source and
    re-invokes a supplied enumeration callback while holding that clear in
    effect". *)
Definition PlatformPopulateDevices (callback : World -> World) (w : World) : World :=
  let w' := log Call_PlatformPopulateDevices w in
  callback
    (with_devices
       (filter (fun c => negb (String.eqb (CoreDevice_GetSource c) Device_GetSource))
               (ci_devices (g_controller_interface w'))) w').

(** ** [Device::UpdateInput], [Device::UpdateMotors], [Motor::SetState] *)

Definition battery_level_of (battery_info : SDL_JoystickPowerLevel) : ControlState :=
  if (battery_info =? SDL_JOYSTICK_POWER_WIRED) || (battery_info =? SDL_JOYSTICK_POWER_MAX)
  then 1.0%float
  else if battery_info =? SDL_JOYSTICK_POWER_MEDIUM then 0.5%float
  else if battery_info =? SDL_JOYSTICK_POWER_LOW then 0.3%float
  else 0%float.

Definition Device_UpdateInput (d : Device) (w : World) : Device * World :=
  let w1 := log Call_SDL_GameControllerUpdate w in
  let battery_info := SDL_JoystickCurrentPowerLevel (sdl w1) (Device_GetSDLJoystick d) in
  (with_battery_level (battery_level_of battery_info) d, w1).

Section Rumble.

(** The pulse length handed to the driver; the constant is declared outside
    the two source files. *)
Variable RUMBLE_LENGTH_MS : Z.

Definition Device_UpdateMotors (d : Device) (w : World) : World :=
  log (Call_SDL_GameControllerRumble (m_controller d)
         (MotorVal.left (motor_val d)) (MotorVal.right (motor_val d)) RUMBLE_LENGTH_MS) w.

(** [(Uint16)(state * m_range)] *)
Definition Motor_magnitude (m_range : Z) (state : ControlState) : option Z :=
  Uint16_of_double (state * ControlState_of_int m_range)%float.

(** [Motor::SetState] on the motor's parent device. *)
Definition Motor_SetState (m : Output) (state : ControlState) (m_parent : Device) (w : World)
    : option (Device * World) :=
  let '(Motor m_range m_index) := m in
  match Motor_magnitude m_range state with
  | None => None
  | Some m_motor =>
      if negb (m_index =? 0) then
        let old_motor := MotorVal.right (motor_val m_parent) in
        if negb (m_motor =? old_motor) then
          let p :=
            with_motor_val
              {| MotorVal.left := MotorVal.left (motor_val m_parent);
                 MotorVal.right := m_motor |} m_parent in
          Some (p, Device_UpdateMotors p w)
        else Some (m_parent, w)
      else
        let old_motor := MotorVal.left (motor_val m_parent) in
        if negb (m_motor =? old_motor) then
          let p :=
            with_motor_val
              {| MotorVal.left := m_motor;
                 MotorVal.right := MotorVal.right (motor_val m_parent) |} m_parent in
          Some (p, Device_UpdateMotors p w)
        else Some (m_parent, w)
  end.

End Rumble.

(** ** The hotplug coordinator

    The hotplug thread and its callers are interleaved explicitly.  [Init]
    blocks on [s_init_event], so it returns the world as the thread leaves
    it when it releases the caller: after the drain loop, or after an early
    return.  What the thread does later, from its wait loop, is
    [hotplug_thread_run], which dispatches the events queued at that moment.
    [join] lets the thread run and returns when its body has returned.
    Adapter destruction, which closes the driver handle, is not followed. *)

Definition is_empty {A : Type} (l : list A) : bool :=
  match l with
  | [] => true
  | _ :: _ => false
  end.

(** The guarded registration at the end of [OpenAndAddDevice]. *)
Definition add_if_has_controls (gc : Device) (w : World) : World :=
  if negb (is_empty (Inputs gc)) || negb (is_empty (Outputs gc))
  then AddDevice gc w
  else w.

Definition OpenAndAddDevice (index : Z) (w : World) : World :=
  match SDL_GameControllerOpen (sdl w) index with
  | Some dev =>
      let gc := Device_Device (uninit_storage w) (sdl w) dev index in
      add_if_has_controls gc w
  | None => w
  end.

(** [for (int i = 0; i < SDL_NumJoysticks(); ++i) OpenAndAddDevice(i);] with
    the bound re-read on every round; [fuel] bounds the number of rounds. *)
Fixpoint populate_loop (fuel : nat) (i : Z) (w : World) : World :=
  match fuel with
  | O => w
  | S fuel' =>
      if i <? SDL_NumJoysticks (sdl w)
      then populate_loop fuel' (i + 1) (OpenAndAddDevice i w)
      else w
  end.

Definition populate_callback (w : World) : World :=
  populate_loop (List.length (sdl_joysticks (sdl w))) 0 w.

(** The predicate handed to [RemoveDevice] for a remove event. *)
Definition removed_device (s : SDL) (which : Z) (device : CoreDevice) : bool :=
  match device with
  | SDL_GC_Device game_controller =>
      SDL_JoystickInstanceID s (Device_GetSDLJoystick game_controller) =? which
  | OtherDevice _ => false
  end.

Definition HandleEventAndContinue (e : SDL_Event) (w : World) : World * bool :=
  if e_type e =? SDL_CONTROLLERDEVICEADDED then
    (OpenAndAddDevice (e_which e) w, true)
  else if e_type e =? SDL_CONTROLLERDEVICEREMOVED then
    (RemoveDevice (e_which e) (removed_device (sdl w) (e_which e)) w, true)
  else if e_type e =? s_populate_event_type w then
    (PlatformPopulateDevices populate_callback w, true)
  else if e_type e =? s_stop_event_type w then
    (w, false)
  else
    (w, true).

(** [while (SDL_PollEvent(&e) != 0) if (!HandleEventAndContinue(e)) return;]
    over the events queued in [q]: each round takes the head of the queue and
    dispatches it; [false] when a handler asked to stop, [true] when the
    queue ran empty.  The wait loop of the thread is the same loop, except
    that on an empty queue the thread blocks instead of leaving. *)
Fixpoint dispatch_queue (q : list SDL_Event) (w : World) : World * bool :=
  match q with
  | [] => (w, true)
  | e :: q' =>
      let (w', continue) := HandleEventAndContinue e (with_queue q' w) in
      if continue then dispatch_queue q' w' else (w', false)
  end.

(** The thread body returns: [quit_guard] runs. *)
Definition hotplug_thread_return (w : World) : World :=
  with_thread Finished (log Call_SDL_Quit w).

(** The body of the hotplug thread up to the point where [Init] is released,
    followed by the thread's return when it leaves early.  [init_guard] fires
    on every way out of the inner block, before [quit_guard]. *)
Definition hotplug_thread_startup (w : World) : World :=
  if sdl_init_result (sdl w) =? 0 then
    let w1 := log (Call_ERROR_LOG "SDL failed to initialize") w in
    hotplug_thread_return (log Call_s_init_event_Set w1)
  else
    let linked := sdl_linked (sdl w) in
    let w1 := log (Call_SDL_SetHint SDL_HINT_JOYSTICK_HIDAPI_PS4_RUMBLE "1") w in
    let w2 := log (Call_SDL_SetHint SDL_HINT_JOYSTICK_HIDAPI_PS5_RUMBLE "1") w1 in
    let w3 :=
      if (major linked =? 2) && (minor linked =? 0) && (14 <=? patch linked)
      then log (Call_SDL_SetHint SDL_HINT_GAMECONTROLLER_USE_BUTTON_LABELS "0") w2
      else w2 in
    let w4 := log (Call_SDL_SetHint SDL_HINT_JOYSTICK_HIDAPI_JOY_CONS "1") w3 in
    let custom_events_start := to_Uint32 (sdl_register_result (sdl w4)) in
    if custom_events_start =? to_Uint32 (-1) then
      let w5 := log (Call_ERROR_LOG "SDL failed to register custom events") w4 in
      hotplug_thread_return (log Call_s_init_event_Set w5)
    else
      let w5 := with_event_types custom_events_start (to_Uint32 (custom_events_start + 1)) w4 in
      let (w6, continue) := dispatch_queue (sdl_queue (sdl w5)) w5 in
      let w7 := log Call_s_init_event_Set w6 in
      if continue then with_thread InWaitLoop w7 else hotplug_thread_return w7.

(** The hotplug thread, once in its wait loop, handles what is queued. *)
Definition hotplug_thread_run (w : World) : World :=
  match s_hotplug_thread w with
  | InWaitLoop =>
      let (w', continue) := dispatch_queue (sdl_queue (sdl w)) w in
      if continue then w' else hotplug_thread_return w'
  | NotStarted | Finished => w
  end.

(** [Init]: assigning to a joinable [std::thread] terminates the process
    ([None]); otherwise the caller is released by [s_init_event]. *)
Definition Init (w : World) : option World :=
  if joinable (s_hotplug_thread w) then None
  else Some (hotplug_thread_startup w).

Definition SDL_PushEvent (e : SDL_Event) (w : World) : World :=
  log (Call_SDL_PushEvent e) (with_queue (sdl_queue (sdl w) ++ [e]) w).

(** [s_hotplug_thread.join()]: returns once the thread body has returned;
    [None] when the thread stays blocked in its wait loop. *)
Definition join (w : World) : option World :=
  let w' := hotplug_thread_run w in
  match s_hotplug_thread w' with
  | Finished => Some (with_thread NotStarted w')
  | NotStarted | InWaitLoop => None
  end.

Definition DeInit (w : World) : option World :=
  if negb (joinable (s_hotplug_thread w)) then Some w
  else
    let stop_event := {| e_type := s_stop_event_type w; e_which := 0 |} in
    join (SDL_PushEvent stop_event w).

Definition PopulateDevices (w : World) : World :=
  if negb (joinable (s_hotplug_thread w)) then w
  else
    let populate_event := {| e_type := s_populate_event_type w; e_which := 0 |} in
    SDL_PushEvent populate_event w.

(** ** What event handling leaves alone

    [frame w w']: [w'] has the statics, the thread, the attached joysticks
    and the registry's accepting flag of [w], and its trace extends the
    trace of [w]. *)
Record frame (w w' : World) : Prop := {
  frame_stop : s_stop_event_type w' = s_stop_event_type w;
  frame_populate : s_populate_event_type w' = s_populate_event_type w;
  frame_thread : s_hotplug_thread w' = s_hotplug_thread w;
  frame_joysticks : sdl_joysticks (sdl w') = sdl_joysticks (sdl w);
  frame_uninit : uninit_storage w' = uninit_storage w;
  frame_accepting :
    ci_accepting (g_controller_interface w') = ci_accepting (g_controller_interface w);
  frame_trace : exists l, trace w' = trace w ++ l
}.

(** The two custom event types are told apart from each other and from the
    driver's add and remove events, as they are once [SDL_RegisterEvents]
    has allocated them at or above [SDL_USEREVENT]. *)
Definition custom_event_types_distinct (w : World) : Prop :=
  s_stop_event_type w <> SDL_CONTROLLERDEVICEADDED /\
  s_stop_event_type w <> SDL_CONTROLLERDEVICEREMOVED /\
  s_stop_event_type w <> s_populate_event_type w /\
  s_populate_event_type w <> SDL_CONTROLLERDEVICEADDED /\
  s_populate_event_type w <> SDL_CONTROLLERDEVICEREMOVED.

Definition stop_event (w : World) : SDL_Event :=
  {| e_type := s_stop_event_type w; e_which := 0 |}.

Definition populate_event (w : World) : SDL_Event :=
  {| e_type := s_populate_event_type w; e_which := 0 |}.

(** The messages logged through [ERROR_LOG_FMT], oldest first. *)
Fixpoint error_logs (l : list Effect) : list string :=
  match l with
  | Call_ERROR_LOG msg :: l' => msg :: error_logs l'
  | _ :: l' => error_logs l'
  | [] => []
  end.

(** ** Sample driver states and worlds, for evaluating the code *)

Definition sample_pad (left_x : Z) (power : SDL_JoystickPowerLevel) : Joystick :=
  {| js_is_gamecontroller := true; js_name := " Pad One "; js_instance_id := 7;
     js_axis := fun axis => match axis with
                            | SDL_CONTROLLER_AXIS_LEFTX => left_x
                            | _ => 0
                            end;
     js_button := fun _ => 0; js_power := power |}.

Definition sample_driver (init_result : Z) (queue : list SDL_Event) (left_x : Z) : SDL :=
  {| sdl_init_result := init_result; sdl_register_result := SDL_USEREVENT;
     sdl_linked := {| major := 2; minor := 0; patch := 14 |};
     sdl_joysticks := [sample_pad left_x SDL_JOYSTICK_POWER_FULL];
     sdl_queue := queue |}.

(** Nothing initialised yet: no thread, an empty registry that does not
    accept devices yet, one pad attached. *)
Definition sample_world (init_result : Z) (queue : list SDL_Event) : World :=
  {| sdl := sample_driver init_result queue 0;
     g_controller_interface := {| ci_accepting := false; ci_devices := [] |};
     uninit_storage := {| MotorVal.left := 11; MotorVal.right := 22 |};
     trace := []; s_stop_event_type := 0; s_populate_event_type := 0;
     s_hotplug_thread := NotStarted |}.

(** The coordinator in its wait loop, the registry accepting devices. *)
Definition sample_running_world : World :=
  {| sdl := sample_driver 0 [] 0;
     g_controller_interface := {| ci_accepting := true; ci_devices := [OtherDevice "XInput"] |};
     uninit_storage := {| MotorVal.left := 11; MotorVal.right := 22 |};
     trace := []; s_stop_event_type := SDL_USEREVENT;
     s_populate_event_type := SDL_USEREVENT + 1;
     s_hotplug_thread := InWaitLoop |}.

Definition add_event (index : Z) : SDL_Event :=
  {| e_type := SDL_CONTROLLERDEVICEADDED; e_which := index |}.

Definition sample_device : Device :=
  Device_Device {| MotorVal.left := 11; MotorVal.right := 22 |} (sample_driver 0 [] 0) 0%nat 0.

(** ** Vocabulary for the properties of the event loop *)

(** The event is the one [HandleEventAndContinue] stops on: its type is
    [s_stop_event_type] and none of the types tested before it. *)
Definition is_stop_event (w : World) (e : SDL_Event) : bool :=
  negb (e_type e =? SDL_CONTROLLERDEVICEADDED) &&
  negb (e_type e =? SDL_CONTROLLERDEVICEREMOVED) &&
  negb (e_type e =? s_populate_event_type w) &&
  (e_type e =? s_stop_event_type w).

(** The event is of none of the four kinds [HandleEventAndContinue] knows. *)
Definition is_unknown_event (w : World) (e : SDL_Event) : bool :=
  negb (e_type e =? SDL_CONTROLLERDEVICEADDED) &&
  negb (e_type e =? SDL_CONTROLLERDEVICEREMOVED) &&
  negb (e_type e =? s_populate_event_type w) &&
  negb (e_type e =? s_stop_event_type w).

(** Every entry is a call on the host registry. *)
Definition registry_calls_only (l : list Effect) : bool :=
  forallb (fun e => match e with
                    | Call_AddDevice _ | Call_RemoveDevice _
                    | Call_PlatformPopulateDevices => true
                    | _ => false
                    end) l.

(** The test [PlatformPopulateDevices] clears with: the device is not one of
    this source. *)
Definition of_other_source (c : CoreDevice) : bool :=
  negb (String.eqb (CoreDevice_GetSource c) Device_GetSource).

(** The adapters [OpenAndAddDevice] builds for the given device indices, in
    order: one for every index the driver opens. *)
Definition opened_adapters (uninit : MotorVal.t) (s : SDL) (indices : list nat)
    : list CoreDevice :=
  flat_map (fun k => match SDL_GameControllerOpen s (Z.of_nat k) with
                     | Some dev => [SDL_GC_Device (Device_Device uninit s dev (Z.of_nat k))]
                     | None => []
                     end) indices.

(** A signed 16-bit sample, as [SDL_GameControllerGetAxis] returns. *)
Definition is_Sint16 (z : Z) : Prop := -32768 <= z <= 32767.

(** An unsigned 8-bit sample, as [SDL_GameControllerGetButton] returns. *)
Definition is_Uint8 (z : Z) : Prop := 0 <= z <= 255.

(** [handled w w']: what handling one event may do to the world: the driver
    is as it was, the frame holds, and the trace grew by calls on the
    registry only. *)
Record handled (w w' : World) : Prop := {
  handled_sdl : sdl w' = sdl w;
  handled_frame : frame w w';
  handled_calls : exists l, trace w' = trace w ++ l /\ registry_calls_only l = true
}.

(** The coordinator in its wait loop with an add event for device 0 still
    queued. *)
Definition sample_pending_world : World :=
  with_queue [add_event 0] sample_running_world.

(** * Properties *)

(** ** The controls an adapter is built with *)

Lemma for_size_counts (ki ko : nat) (body : Z -> Device -> Device) :
  (forall i d,
      List.length (m_inputs (body i d)) = (List.length (m_inputs d) + ki)%nat /\
      List.length (m_outputs (body i d)) = (List.length (m_outputs d) + ko)%nat) ->
  forall size d,
    List.length (m_inputs (for_size size body d)) = (List.length (m_inputs d) + size * ki)%nat /\
    List.length (m_outputs (for_size size body d)) = (List.length (m_outputs d) + size * ko)%nat.
Proof.
  intros Hbody size d. unfold for_size.
  rewrite <- (length_seq size 0) at 2 4.
  generalize (seq 0 size) as l. intros l. revert d.
  induction l as [|i l IH]; intros d; simpl.
  - split; lia.
  - destruct (IH (body (Z.of_nat i) d)) as [Hi Ho].
    destruct (Hbody (Z.of_nat i) d) as [Hbi Hbo].
    rewrite Hi, Ho, Hbi, Hbo. split; lia.
Qed.

Lemma AddInput_counts (i : Input) (d : Device) :
  List.length (m_inputs (AddInput i d)) = (List.length (m_inputs d) + 1)%nat /\
  List.length (m_outputs (AddInput i d)) = (List.length (m_outputs d) + 0)%nat.
Proof. simpl. rewrite length_app. simpl. split; lia. Qed.

Lemma AddOutput_counts (o : Output) (d : Device) :
  List.length (m_inputs (AddOutput o d)) = (List.length (m_inputs d) + 0)%nat /\
  List.length (m_outputs (AddOutput o d)) = (List.length (m_outputs d) + 1)%nat.
Proof. simpl. rewrite length_app. simpl. split; lia. Qed.

Lemma AddAnalogInputs_counts (low high : Input) (d : Device) :
  List.length (m_inputs (AddAnalogInputs low high d)) = (List.length (m_inputs d) + 2)%nat /\
  List.length (m_outputs (AddAnalogInputs low high d)) = (List.length (m_outputs d) + 0)%nat.
Proof. simpl. rewrite !length_app. simpl. split; lia. Qed.

Lemma Device_build_counts (nb nt na nm : nat) uninit s controller index :
  List.length (m_inputs (Device_build nb nt na nm uninit s controller index))
    = (nb + nt + 2 * na + 1)%nat /\
  List.length (m_outputs (Device_build nb nt na nm uninit s controller index)) = nm.
Proof.
  unfold Device_build.
  set (d0 := Build_Device _ _ _ _ _ _ _ _).
  set (d1 := for_size nb _ d0).
  set (d2 := for_size nt _ d1).
  set (d3 := for_size na _ d2).
  set (d4 := for_size nm _ d3).
  destruct (AddInput_counts Battery d4) as [Hi5 Ho5].
  destruct (for_size_counts 0 1 (fun i => AddOutput (new_Motor i 65535))
              (fun i d => AddOutput_counts _ d) nm d3) as [Hi4 Ho4].
  destruct (for_size_counts 2 0
              (fun i => AddAnalogInputs (new_Axis i controller SDL_JOYSTICK_AXIS_MIN)
                                        (new_Axis i controller SDL_JOYSTICK_AXIS_MAX))
              (fun i d => AddAnalogInputs_counts _ _ d) na d2) as [Hi3 Ho3].
  destruct (for_size_counts 1 0
              (fun i => AddInput (new_Trigger i controller SDL_JOYSTICK_AXIS_MAX))
              (fun i d => AddInput_counts _ d) nt d1) as [Hi2 Ho2].
  destruct (for_size_counts 1 0 (fun i => AddInput (new_Button i controller))
              (fun i d => AddInput_counts _ d) nb d0) as [Hi1 Ho1].
  fold d1 in Hi1, Ho1. fold d2 in Hi2, Ho2. fold d3 in Hi3, Ho3. fold d4 in Hi4, Ho4.
  rewrite Hi5, Ho5, Hi4, Ho4, Hi3, Ho3, Hi2, Ho2, Hi1, Ho1.
  subst d0. simpl. split; lia.
Qed.

(** C5. For catalog sizes B (buttons), T (trigger axes), A (stick axes) and
    M (motors), the constructed adapter has exactly B + T + 2A + 1 input
    controls and exactly M output controls. *)
Theorem Device_control_count (B T A M : nat) (uninit : MotorVal.t) (s : SDL)
    (controller : SDL_GameController) (index : Z) :
  List.length (Inputs (Device_build B T A M uninit s controller index))
    = (B + T + 2 * A + 1)%nat /\
  List.length (Outputs (Device_build B T A M uninit s controller index)) = M.
Proof. unfold Inputs, Outputs. apply Device_build_counts. Qed.

(** With the catalogs of the source file: 16 + 2 + 2 * 4 + 1 inputs and 2
    outputs. *)
Lemma Device_Device_control_count uninit s controller index :
  List.length (Inputs (Device_Device uninit s controller index)) = 27%nat /\
  List.length (Outputs (Device_Device uninit s controller index)) = 2%nat.
Proof. unfold Inputs, Outputs, Device_Device. apply Device_build_counts. Qed.

(** The controls of an adapter, spelled out. *)
Lemma Device_Device_controls uninit s controller index :
  Inputs (Device_Device uninit s controller index) =
    (map (fun i => new_Button (Z.of_nat i) controller) (seq 0 16) ++
     map (fun i => new_Trigger (Z.of_nat i) controller SDL_JOYSTICK_AXIS_MAX) (seq 0 2) ++
     flat_map (fun i => [new_Axis (Z.of_nat i) controller SDL_JOYSTICK_AXIS_MIN;
                         new_Axis (Z.of_nat i) controller SDL_JOYSTICK_AXIS_MAX]) (seq 0 4) ++
     [Battery])%list /\
  Outputs (Device_Device uninit s controller index) = [new_Motor 0 0xFFFF; new_Motor 1 0xFFFF].
Proof. split; reflexivity. Qed.

Lemma Device_build_has_input (nb nt na nm : nat) uninit s controller index :
  Inputs (Device_build nb nt na nm uninit s controller index) <> [].
Proof.
  unfold Inputs. intros H.
  pose proof (Device_build_counts nb nt na nm uninit s controller index) as [Hi _].
  rewrite H in Hi. simpl in Hi. lia.
Qed.

(** ** Stick axes *)

Lemma to_Uint16_nonneg (z : Z) : (to_Uint16 z <? 0) = false.
Proof. unfold to_Uint16. apply Z.ltb_ge. apply Z.mod_pos_bound. lia. Qed.

Lemma stick_axis_index (k : nat) (def : AxisDef) :
  nth_error named_stick_axis k = Some def ->
  at_index named_stick_axis (to_u8 (Z.of_nat k)) = Some def.
Proof.
  destruct k as [|[|[|[|k]]]]; simpl; intros H; try exact H.
  destruct k; discriminate H.
Qed.

(** C10. For every stick-axis catalog entry the two polarity controls built
    for it return the same name, with the '+' suffix: the stored range is an
    unsigned 16-bit value, so [m_range < 0] never holds. *)
Theorem Axis_polarities_share_name (k : nat) (gc : SDL_GameController) (def : AxisDef) :
  nth_error named_stick_axis k = Some def ->
  let low := new_Axis (Z.of_nat k) gc SDL_JOYSTICK_AXIS_MIN in
  let high := new_Axis (Z.of_nat k) gc SDL_JOYSTICK_AXIS_MAX in
  Input_GetName low = Some (String.append (AxisDef_name def) "+") /\
  Input_GetName high = Some (String.append (AxisDef_name def) "+") /\
  Input_GetName low = Input_GetName high /\
  (forall range, exists m_range,
      new_Axis (Z.of_nat k) gc range = Axis (to_u8 (Z.of_nat k)) gc m_range /\
      (m_range <? 0) = false) /\
  (forall uninit s index,
      nth_error (Inputs (Device_Device uninit s gc index)) (18 + 2 * k) = Some low /\
      nth_error (Inputs (Device_Device uninit s gc index)) (18 + 2 * k + 1) = Some high).
Proof.
  intros H low high.
  assert (Hname : forall range,
             Input_GetName (new_Axis (Z.of_nat k) gc range)
             = Some (String.append (AxisDef_name def) "+")).
  { intros range. unfold new_Axis, Input_GetName, Axis_GetName.
    rewrite (stick_axis_index k def H), to_Uint16_nonneg. reflexivity. }
  split; [apply Hname|]. split; [apply Hname|].
  split; [unfold low, high; rewrite !Hname; reflexivity|].
  split.
  - intros range. exists (to_Uint16 range). split; [reflexivity|apply to_Uint16_nonneg].
  - intros uninit s index. subst low high.
    destruct k as [|[|[|[|k]]]]; try (split; reflexivity).
    destruct k; discriminate H.
Qed.

Lemma Axis_polarities_share_name_witness :
  Input_GetName (new_Axis 1 0%nat SDL_JOYSTICK_AXIS_MIN) = Some "Left Y+" /\
  Input_GetName (new_Axis 1 0%nat SDL_JOYSTICK_AXIS_MAX) = Some "Left Y+".
Proof.
  pose proof (Axis_polarities_share_name 1 0%nat
                {| AxisDef_name := "Left Y"; AxisDef_bitmask := SDL_CONTROLELR_AXIS_LEFTY |}
                eq_refl) as H.
  split; [exact (proj1 H)|exact (proj1 (proj2 H))].
Defined.

Lemma Axis_GetState_unfold (s : SDL) (k : nat) (gc : SDL_GameController) (def : AxisDef)
    (range : Z) :
  nth_error named_stick_axis k = Some def ->
  to_Uint16 range <> 0 ->
  Axis_GetState s (to_u8 (Z.of_nat k)) gc (to_Uint16 range) =
    Some (ControlState_of_int
            (Z.quot (SDL_GameControllerGetAxis s gc (AxisDef_bitmask def)) (to_Uint16 range))).
Proof.
  intros H Hr. unfold Axis_GetState. rewrite (stick_axis_index k def H).
  destruct (Z.eqb_spec (to_Uint16 range) 0) as [E|_]; [contradiction|reflexivity].
Qed.

(** C1, as the code has it.  For every stick-axis catalog entry the
    positive-polarity control reads exactly 1.0 at the positive extreme, 0 at
    rest and -1.0 (a negative value) at the negative extreme; the
    negative-polarity control reads 0 at rest and at the positive extreme. *)
Theorem Axis_GetState_at_extremes (s : SDL) (m_level : ControlState) (k : nat)
    (gc : SDL_GameController) (def : AxisDef) :
  nth_error named_stick_axis k = Some def ->
  let raw := SDL_GameControllerGetAxis s gc (AxisDef_bitmask def) in
  let negative := new_Axis (Z.of_nat k) gc SDL_JOYSTICK_AXIS_MIN in
  let positive := new_Axis (Z.of_nat k) gc SDL_JOYSTICK_AXIS_MAX in
  (raw = SDL_JOYSTICK_AXIS_MAX -> Input_GetState s m_level positive = Some 1%float) /\
  (raw = 0 -> Input_GetState s m_level positive = Some 0%float) /\
  (raw = SDL_JOYSTICK_AXIS_MIN ->
     Input_GetState s m_level positive = Some (-1)%float /\
     ((-1) <? 0)%float = true /\ approx_eq (-1)%float 0%float = false) /\
  (raw = 0 -> Input_GetState s m_level negative = Some 0%float) /\
  (raw = SDL_JOYSTICK_AXIS_MAX -> Input_GetState s m_level negative = Some 0%float).
Proof.
  intros H raw negative positive.
  assert (Hmax : to_Uint16 SDL_JOYSTICK_AXIS_MAX <> 0) by (vm_compute; discriminate).
  assert (Hmin : to_Uint16 SDL_JOYSTICK_AXIS_MIN <> 0) by (vm_compute; discriminate).
  pose proof (Axis_GetState_unfold s k gc def _ H Hmax) as Hpos.
  pose proof (Axis_GetState_unfold s k gc def _ H Hmin) as Hneg.
  fold raw in Hpos, Hneg.
  unfold positive, negative, new_Axis, Input_GetState.
  split; [|split; [|split; [|split]]]; intros E; rewrite ?Hpos, ?Hneg, E;
    repeat split; reflexivity.
Qed.

Lemma Axis_GetState_at_extremes_witness :
  Input_GetState (sample_driver 0 [] SDL_JOYSTICK_AXIS_MAX) 0%float
    (new_Axis 0 0%nat SDL_JOYSTICK_AXIS_MAX) = Some 1%float.
Proof.
  apply (proj1 (Axis_GetState_at_extremes (sample_driver 0 [] SDL_JOYSTICK_AXIS_MAX) 0%float
                  0 0%nat
                  {| AxisDef_name := "Left X"; AxisDef_bitmask := SDL_CONTROLLER_AXIS_LEFTX |}
                  eq_refl)).
  reflexivity.
Defined.

(** Counterexample to C1 as stated: with the Left X sample at the negative
    extreme the positive-polarity control reads -1.0, which is negative and
    not approximately 0. *)
Lemma Axis_positive_polarity_at_negative_extreme :
  SDL_GameControllerGetAxis (sample_driver 0 [] SDL_JOYSTICK_AXIS_MIN) 0%nat
    SDL_CONTROLLER_AXIS_LEFTX = SDL_JOYSTICK_AXIS_MIN /\
  exists v,
    Input_GetState (sample_driver 0 [] SDL_JOYSTICK_AXIS_MIN) 0%float
      (new_Axis 0 0%nat SDL_JOYSTICK_AXIS_MAX) = Some v /\
    ~ (approx_eq v 0%float = true /\ (v <? 0)%float = false).
Proof.
  split; [reflexivity|]. exists (-1)%float. split; [reflexivity|].
  intros [Happrox _]. vm_compute in Happrox. discriminate Happrox.
Qed.

(** The negative-polarity control at the negative extreme: the range was
    passed as -32768 and stored as the unsigned 32768, so the control reads
    -1.0 where the mirrored value is 1.0. *)
Lemma Axis_negative_polarity_at_negative_extreme :
  Input_GetState (sample_driver 0 [] SDL_JOYSTICK_AXIS_MIN) 0%float
    (new_Axis 0 0%nat SDL_JOYSTICK_AXIS_MIN) = Some (-1)%float.
Proof. reflexivity. Qed.

(** The quotient is an integer quotient: half deflection reads 0. *)
Lemma Axis_positive_polarity_at_half_deflection :
  Input_GetState (sample_driver 0 [] 16384) 0%float
    (new_Axis 0 0%nat SDL_JOYSTICK_AXIS_MAX) = Some 0%float.
Proof. reflexivity. Qed.

(** ** Battery level *)

(** C3. [Device::UpdateInput] maps the driver's power state to the battery
    level exactly: wired and max give 1.0, medium 0.5, low 0.3, every other
    power state 0; no other level occurs. *)
Theorem UpdateInput_battery_level (d : Device) (w : World) :
  let battery_info := SDL_JoystickCurrentPowerLevel (sdl w) (Device_GetSDLJoystick d) in
  let level := m_battery_level (fst (Device_UpdateInput d w)) in
  (battery_info = SDL_JOYSTICK_POWER_WIRED \/ battery_info = SDL_JOYSTICK_POWER_MAX ->
     level = 1.0%float) /\
  (battery_info = SDL_JOYSTICK_POWER_MEDIUM -> level = 0.5%float) /\
  (battery_info = SDL_JOYSTICK_POWER_LOW -> level = 0.3%float) /\
  (battery_info <> SDL_JOYSTICK_POWER_WIRED -> battery_info <> SDL_JOYSTICK_POWER_MAX ->
   battery_info <> SDL_JOYSTICK_POWER_MEDIUM -> battery_info <> SDL_JOYSTICK_POWER_LOW ->
     level = 0%float) /\
  (level = 1.0%float \/ level = 0.5%float \/ level = 0.3%float \/ level = 0%float).
Proof.
  intros battery_info level.
  assert (Hl : level = battery_level_of battery_info) by reflexivity.
  rewrite Hl. clear Hl level. generalize battery_info as p. clear. intros p.
  unfold battery_level_of, SDL_JOYSTICK_POWER_WIRED, SDL_JOYSTICK_POWER_MAX,
    SDL_JOYSTICK_POWER_MEDIUM, SDL_JOYSTICK_POWER_LOW.
  destruct (Z.eqb_spec p 4); destruct (Z.eqb_spec p 5);
    destruct (Z.eqb_spec p 2); destruct (Z.eqb_spec p 1); simpl;
    repeat split; intros; try reflexivity; try lia; tauto.
Qed.

Lemma UpdateInput_battery_level_witness :
  m_battery_level (fst (Device_UpdateInput sample_device sample_running_world)) = 0%float /\
  SDL_JoystickCurrentPowerLevel (sdl sample_running_world)
    (Device_GetSDLJoystick sample_device) = SDL_JOYSTICK_POWER_FULL.
Proof.
  split; [|reflexivity].
  apply (proj1 (proj2 (proj2 (proj2
           (UpdateInput_battery_level sample_device sample_running_world)))));
    vm_compute; discriminate.
Defined.

(** A full battery is none of the four tested states: it reads 0. *)
Lemma battery_level_of_samples :
  battery_level_of SDL_JOYSTICK_POWER_WIRED = 1.0%float /\
  battery_level_of SDL_JOYSTICK_POWER_MAX = 1.0%float /\
  battery_level_of SDL_JOYSTICK_POWER_MEDIUM = 0.5%float /\
  battery_level_of SDL_JOYSTICK_POWER_LOW = 0.3%float /\
  battery_level_of SDL_JOYSTICK_POWER_FULL = 0%float /\
  battery_level_of SDL_JOYSTICK_POWER_EMPTY = 0%float /\
  battery_level_of SDL_JOYSTICK_POWER_UNKNOWN = 0%float.
Proof. repeat split; reflexivity. Qed.

(** ** Rumble motors *)

Section RumbleProperties.

Variable RUMBLE_LENGTH_MS : Z.

(** C4. A motor control computes its 16-bit magnitude as the requested
    fraction times 65535.  If that magnitude equals the magnitude stored
    in the adapter for the motor's side, nothing happens: no call to the
    driver, adapter unchanged.  If it differs, the stored magnitude of
    that side is replaced and the driver is called exactly once, with the
    stored magnitudes of both sides. *)
Theorem Motor_SetState_write_suppression (index : Z) (state : ControlState)
    (m_parent : Device) (w : World) (m_motor : Z) :
  let m := new_Motor index 0xFFFF in
  let side (v : MotorVal.t) :=
    if to_u8 index =? 0 then MotorVal.left v else MotorVal.right v in
  let other (v : MotorVal.t) :=
    if to_u8 index =? 0 then MotorVal.right v else MotorVal.left v in
  Uint16_of_double (state * 65535)%float = Some m_motor ->
  (m_motor = side (motor_val m_parent) ->
     Motor_SetState RUMBLE_LENGTH_MS m state m_parent w = Some (m_parent, w)) /\
  (m_motor <> side (motor_val m_parent) ->
     exists p w',
       Motor_SetState RUMBLE_LENGTH_MS m state m_parent w = Some (p, w') /\
       side (motor_val p) = m_motor /\
       other (motor_val p) = other (motor_val m_parent) /\
       p = with_motor_val (motor_val p) m_parent /\
       w' = log (Call_SDL_GameControllerRumble (m_controller m_parent)
                   (MotorVal.left (motor_val p)) (MotorVal.right (motor_val p))
                   RUMBLE_LENGTH_MS) w /\
       trace w' = trace w ++
         [Call_SDL_GameControllerRumble (m_controller m_parent)
            (MotorVal.left (motor_val p)) (MotorVal.right (motor_val p))
            RUMBLE_LENGTH_MS]).
Proof.
  intros m side other Hmag.
  assert (Hm : Motor_magnitude (to_Uint16 65535) state = Some m_motor) by exact Hmag.
  unfold m, new_Motor, Motor_SetState. rewrite Hm.
  unfold side, other. clear m side other Hm Hmag.
  destruct (to_u8 index =? 0); simpl.
  - split.
    + intros E. rewrite E, Z.eqb_refl. reflexivity.
    + intros N. apply Z.eqb_neq in N. rewrite N. simpl.
      eexists. eexists. split; [reflexivity|]. simpl. repeat split; reflexivity.
  - split.
    + intros E. rewrite E, Z.eqb_refl. reflexivity.
    + intros N. apply Z.eqb_neq in N. rewrite N. simpl.
      eexists. eexists. split; [reflexivity|]. simpl. repeat split; reflexivity.
Qed.

(** Outside the range of the cast the call has no defined behaviour. *)
Lemma Motor_SetState_undefined (m : Output) (state : ControlState)
    (m_parent : Device) (w : World) :
  (let '(Motor m_range _) := m in Motor_magnitude m_range state = None) ->
  Motor_SetState RUMBLE_LENGTH_MS m state m_parent w = None.
Proof. destruct m as [r i]. intros H. unfold Motor_SetState. rewrite H. reflexivity. Qed.

End RumbleProperties.

Lemma Motor_SetState_write_suppression_witness :
  Motor_SetState 1000 (new_Motor 0 0xFFFF) 0.5%float
    (with_motor_val {| MotorVal.left := 32767; MotorVal.right := 22 |} sample_device)
    sample_running_world
  = Some (with_motor_val {| MotorVal.left := 32767; MotorVal.right := 22 |} sample_device,
          sample_running_world).
Proof.
  apply (proj1 (Motor_SetState_write_suppression 1000 0 0.5%float
                  (with_motor_val {| MotorVal.left := 32767; MotorVal.right := 22 |} sample_device)
                  sample_running_world 32767 eq_refl)).
  reflexivity.
Defined.

(** Full, half and zero deflection, and a changed value on the right side. *)
Lemma Motor_magnitude_samples :
  Motor_magnitude 65535 1%float = Some 65535 /\
  Motor_magnitude 65535 0.5%float = Some 32767 /\
  Motor_magnitude 65535 0%float = Some 0 /\
  Motor_magnitude 65535 2%float = None.
Proof. repeat split; reflexivity. Qed.

Lemma Motor_SetState_changed_sample :
  option_map (fun r => (motor_val (fst r), trace (snd r)))
    (Motor_SetState 1000 (new_Motor 1 0xFFFF) 1%float sample_device sample_running_world)
  = Some ({| MotorVal.left := 11; MotorVal.right := 65535 |},
          [Call_SDL_GameControllerRumble 0%nat 11 65535 1000]).
Proof. reflexivity. Qed.

(** ** Opening and registering a device *)

Lemma is_empty_nil {A : Type} (l : list A) : is_empty l = true <-> l = [].
Proof. destruct l; simpl; split; intros H; congruence. Qed.

Lemma add_if_has_controls_spec (gc : Device) (w : World) :
  (Inputs gc = [] -> Outputs gc = [] -> add_if_has_controls gc w = w) /\
  (Inputs gc <> [] \/ Outputs gc <> [] -> add_if_has_controls gc w = AddDevice gc w).
Proof.
  unfold add_if_has_controls. split.
  - intros Hi Ho. rewrite Hi, Ho. reflexivity.
  - intros [H|H].
    + destruct (Inputs gc); [contradiction|reflexivity].
    + destruct (Outputs gc); [contradiction|].
      simpl. rewrite orb_true_r. reflexivity.
Qed.

Lemma trace_AddDevice (gc : Device) (w : World) :
  trace (AddDevice gc w) = trace w ++ [Call_AddDevice gc].
Proof. unfold AddDevice. simpl. destruct (ci_accepting _); reflexivity. Qed.

(** C7. When the driver fails to open the device, handling the add event
    changes nothing: no adapter, no call on the registry, no error logged.
    When the open succeeds, the adapter is handed to the registry only if it
    has at least one input or output control. *)
Theorem OpenAndAddDevice_open_failure_is_silent (index : Z) (w : World) :
  (SDL_GameControllerOpen (sdl w) index = None -> OpenAndAddDevice index w = w) /\
  (forall dev, SDL_GameControllerOpen (sdl w) index = Some dev ->
     OpenAndAddDevice index w
     = add_if_has_controls (Device_Device (uninit_storage w) (sdl w) dev index) w) /\
  (forall gc : Device,
     Inputs gc = [] -> Outputs gc = [] -> add_if_has_controls gc w = w) /\
  (forall gc : Device,
     In (Call_AddDevice gc) (trace (OpenAndAddDevice index w)) ->
     In (Call_AddDevice gc) (trace w) \/ Inputs gc <> [] \/ Outputs gc <> []).
Proof.
  split; [|split; [|split]].
  - intros H. unfold OpenAndAddDevice. rewrite H. reflexivity.
  - intros dev H. unfold OpenAndAddDevice. rewrite H. reflexivity.
  - intros gc. apply add_if_has_controls_spec.
  - intros gc. unfold OpenAndAddDevice.
    destruct (SDL_GameControllerOpen (sdl w) index) as [dev|]; [|auto].
    set (gc' := Device_Device _ _ _ _). unfold add_if_has_controls.
    destruct (is_empty (Inputs gc')) eqn:Ei; destruct (is_empty (Outputs gc')) eqn:Eo;
      simpl; auto; rewrite trace_AddDevice; intros Hin;
      apply in_app_or in Hin; destruct Hin as [Hin|[Hin|[]]]; auto;
      injection Hin as <-; right.
    + right. intros E. apply is_empty_nil in E. congruence.
    + left. intros E. apply is_empty_nil in E. congruence.
    + left. intros E. apply is_empty_nil in E. congruence.
Qed.

Lemma OpenAndAddDevice_open_failure_is_silent_witness :
  OpenAndAddDevice 5 (sample_world 0 []) = sample_world 0 [].
Proof.
  apply (proj1 (OpenAndAddDevice_open_failure_is_silent 5 (sample_world 0 []))).
  reflexivity.
Defined.

Lemma OpenAndAddDevice_opened (index : Z) (w : World) (dev : SDL_GameController) :
  SDL_GameControllerOpen (sdl w) index = Some dev ->
  OpenAndAddDevice index w
  = AddDevice (Device_Device (uninit_storage w) (sdl w) dev index) w.
Proof.
  intros H. unfold OpenAndAddDevice. rewrite H.
  apply add_if_has_controls_spec. left. apply Device_build_has_input.
Qed.

(** C9. Every constructed adapter has at least one input, the battery
    control, whatever the catalogs hold; so the guard in front of the
    registration never rejects an adapter: every device the driver opens is
    handed to the registry's [AddDevice], and enters the device list of a
    registry that accepts devices. *)
Theorem opened_device_is_always_registered (index : Z) (w : World)
    (dev : SDL_GameController) :
  SDL_GameControllerOpen (sdl w) index = Some dev ->
  let gc := Device_Device (uninit_storage w) (sdl w) dev index in
  (forall B T A M uninit s controller i,
      Inputs (Device_build B T A M uninit s controller i) <> [] /\
      In Battery (Inputs (Device_build B T A M uninit s controller i))) /\
  Inputs gc <> [] /\
  (negb (is_empty (Inputs gc)) || negb (is_empty (Outputs gc))) = true /\
  OpenAndAddDevice index w = AddDevice gc w /\
  trace (OpenAndAddDevice index w) = trace w ++ [Call_AddDevice gc] /\
  (ci_accepting (g_controller_interface w) = true ->
   ci_devices (g_controller_interface (OpenAndAddDevice index w))
   = ci_devices (g_controller_interface w) ++ [SDL_GC_Device gc]).
Proof.
  intros H gc.
  assert (Hne : Inputs gc <> []) by apply Device_build_has_input.
  assert (Hadd : OpenAndAddDevice index w = AddDevice gc w)
    by (apply OpenAndAddDevice_opened; exact H).
  split; [|split; [exact Hne|split; [|split; [exact Hadd|split]]]].
  - intros B T A M uninit s controller i. split; [apply Device_build_has_input|].
    unfold Device_build, Inputs, AddInput. simpl. apply in_or_app. right. left. reflexivity.
  - destruct (Inputs gc); [contradiction|reflexivity].
  - rewrite Hadd. apply trace_AddDevice.
  - intros Hacc. rewrite Hadd. unfold AddDevice. simpl. rewrite Hacc. reflexivity.
Qed.

Lemma opened_device_is_always_registered_witness :
  OpenAndAddDevice 0 sample_running_world
  = AddDevice (Device_Device (uninit_storage sample_running_world)
                 (sdl sample_running_world) 0%nat 0) sample_running_world.
Proof.
  apply (opened_device_is_always_registered 0 sample_running_world 0%nat eq_refl).
Defined.

(** ** Event handling: what stays fixed *)

Lemma frame_refl (w : World) : frame w w.
Proof. constructor; try reflexivity. exists []. symmetry. apply app_nil_r. Qed.

Lemma frame_trans (w1 w2 w3 : World) : frame w1 w2 -> frame w2 w3 -> frame w1 w3.
Proof.
  intros [a1 b1 c1 d1 e1 f1 [l1 g1]] [a2 b2 c2 d2 e2 f2 [l2 g2]].
  constructor; try congruence.
  exists (l1 ++ l2). rewrite g2, g1. symmetry. apply app_assoc.
Qed.

Lemma frame_log (e : Effect) (w : World) : frame w (log e w).
Proof. constructor; try reflexivity. exists [e]. reflexivity. Qed.

Lemma frame_with_devices (l : list CoreDevice) (w : World) : frame w (with_devices l w).
Proof. constructor; try reflexivity. exists []. symmetry. apply app_nil_r. Qed.

Lemma frame_with_queue (q : list SDL_Event) (w : World) : frame w (with_queue q w).
Proof. constructor; try reflexivity. exists []. symmetry. apply app_nil_r. Qed.

Lemma frame_AddDevice (d : Device) (w : World) : frame w (AddDevice d w).
Proof.
  unfold AddDevice. destruct (ci_accepting _).
  - eapply frame_trans; [apply frame_log|apply frame_with_devices].
  - apply frame_log.
Qed.

Lemma frame_RemoveDevice which callback (w : World) : frame w (RemoveDevice which callback w).
Proof. unfold RemoveDevice. eapply frame_trans; [apply frame_log|apply frame_with_devices]. Qed.

Lemma frame_OpenAndAddDevice (index : Z) (w : World) : frame w (OpenAndAddDevice index w).
Proof.
  unfold OpenAndAddDevice, add_if_has_controls.
  destruct (SDL_GameControllerOpen _ _); [|apply frame_refl].
  destruct (_ || _); [apply frame_AddDevice|apply frame_refl].
Qed.

Lemma frame_populate_loop (fuel : nat) : forall i w, frame w (populate_loop fuel i w).
Proof.
  induction fuel as [|fuel IH]; intros i w; simpl; [apply frame_refl|].
  destruct (i <? _); [|apply frame_refl].
  eapply frame_trans; [apply frame_OpenAndAddDevice|apply IH].
Qed.

(** The fuel of [populate_callback] is exact: the loop opens every index
    below [SDL_NumJoysticks] once, in order, and then its test fails. *)
Lemma populate_loop_unrolled (fuel : nat) : forall (n : nat) (w : World),
  (n + fuel)%nat = List.length (sdl_joysticks (sdl w)) ->
  populate_loop fuel (Z.of_nat n) w
  = fold_left (fun acc k => OpenAndAddDevice (Z.of_nat k) acc) (seq n fuel) w /\
  (Z.of_nat (n + fuel) <? SDL_NumJoysticks (sdl (populate_loop fuel (Z.of_nat n) w))) = false.
Proof.
  induction fuel as [|fuel IH]; intros n w H.
  - simpl. split; [reflexivity|].
    unfold SDL_NumJoysticks. rewrite <- H. apply Z.ltb_irrefl.
  - cbn [populate_loop seq fold_left].
    assert (Hlt : (Z.of_nat n <? SDL_NumJoysticks (sdl w)) = true).
    { unfold SDL_NumJoysticks. rewrite <- H. apply Z.ltb_lt. lia. }
    rewrite Hlt. replace (Z.of_nat n + 1) with (Z.of_nat (S n)) by lia.
    replace (n + S fuel)%nat with (S n + fuel)%nat by lia.
    apply IH.
    rewrite (frame_joysticks _ _ (frame_OpenAndAddDevice (Z.of_nat n) w)). lia.
Qed.

Lemma frame_PlatformPopulateDevices (w : World) :
  frame w (PlatformPopulateDevices populate_callback w).
Proof.
  unfold PlatformPopulateDevices, populate_callback.
  eapply frame_trans; [apply frame_log|].
  eapply frame_trans; [apply frame_with_devices|apply frame_populate_loop].
Qed.

Lemma frame_HandleEventAndContinue (e : SDL_Event) (w : World) :
  frame w (fst (HandleEventAndContinue e w)).
Proof.
  unfold HandleEventAndContinue.
  destruct (e_type e =? SDL_CONTROLLERDEVICEADDED); [apply frame_OpenAndAddDevice|].
  destruct (e_type e =? SDL_CONTROLLERDEVICEREMOVED); [apply frame_RemoveDevice|].
  destruct (e_type e =? s_populate_event_type w); [apply frame_PlatformPopulateDevices|].
  destruct (e_type e =? s_stop_event_type w); apply frame_refl.
Qed.

Lemma frame_dispatch_queue (q : list SDL_Event) :
  forall w, frame w (fst (dispatch_queue q w)).
Proof.
  induction q as [|e q IH]; intros w; simpl; [apply frame_refl|].
  pose proof (frame_HandleEventAndContinue e (with_queue q w)) as Hh.
  destruct (HandleEventAndContinue e (with_queue q w)) as [w' continue].
  simpl in Hh.
  assert (Hw : frame w w') by (eapply frame_trans; [apply frame_with_queue|exact Hh]).
  destruct continue; [|exact Hw].
  eapply frame_trans; [exact Hw|apply IH].
Qed.

(** A registry that does not accept devices gains none. *)
Lemma OpenAndAddDevice_not_accepting (index : Z) (w : World) :
  ci_accepting (g_controller_interface w) = false ->
  ci_devices (g_controller_interface (OpenAndAddDevice index w))
  = ci_devices (g_controller_interface w).
Proof.
  intros H. unfold OpenAndAddDevice, add_if_has_controls, AddDevice.
  destruct (SDL_GameControllerOpen _ _); [|reflexivity].
  destruct (_ || _); [|reflexivity].
  simpl. rewrite H. reflexivity.
Qed.

Lemma populate_loop_not_accepting (fuel : nat) : forall i w,
  ci_accepting (g_controller_interface w) = false ->
  ci_devices (g_controller_interface (populate_loop fuel i w))
  = ci_devices (g_controller_interface w).
Proof.
  induction fuel as [|fuel IH]; intros i w H; simpl; [reflexivity|].
  destruct (i <? _); [|reflexivity].
  rewrite IH.
  - apply OpenAndAddDevice_not_accepting, H.
  - rewrite (frame_accepting _ _ (frame_OpenAndAddDevice i w)). exact H.
Qed.

Lemma HandleEventAndContinue_not_accepting (e : SDL_Event) (w : World) :
  ci_accepting (g_controller_interface w) = false ->
  ci_devices (g_controller_interface w) = [] ->
  ci_devices (g_controller_interface (fst (HandleEventAndContinue e w))) = [].
Proof.
  intros Hacc Hdev. unfold HandleEventAndContinue.
  destruct (e_type e =? SDL_CONTROLLERDEVICEADDED).
  { simpl. rewrite OpenAndAddDevice_not_accepting; assumption. }
  destruct (e_type e =? SDL_CONTROLLERDEVICEREMOVED).
  { simpl. rewrite Hdev. reflexivity. }
  destruct (e_type e =? s_populate_event_type w).
  { simpl. unfold PlatformPopulateDevices, populate_callback.
    rewrite populate_loop_not_accepting; simpl; [|exact Hacc].
    rewrite Hdev. reflexivity. }
  destruct (e_type e =? s_stop_event_type w); exact Hdev.
Qed.

Lemma dispatch_queue_not_accepting (q : list SDL_Event) : forall w,
  ci_accepting (g_controller_interface w) = false ->
  ci_devices (g_controller_interface w) = [] ->
  ci_devices (g_controller_interface (fst (dispatch_queue q w))) = [].
Proof.
  induction q as [|e q IH]; intros w Hacc Hdev; simpl; [exact Hdev|].
  pose proof (frame_HandleEventAndContinue e (with_queue q w)) as Hf.
  pose proof (HandleEventAndContinue_not_accepting e (with_queue q w) Hacc Hdev) as Hd.
  destruct (HandleEventAndContinue e (with_queue q w)) as [w' continue].
  simpl in Hf, Hd. destruct continue; [|exact Hd].
  apply IH; [|exact Hd].
  rewrite (frame_accepting _ _ Hf). exact Hacc.
Qed.

(** A queued stop event ends the loop. *)
Lemma HandleEventAndContinue_stop (w : World) :
  custom_event_types_distinct w ->
  HandleEventAndContinue (stop_event w) w = (w, false).
Proof.
  intros (Ha & Hr & Hp & _). unfold HandleEventAndContinue, stop_event. simpl.
  apply Z.eqb_neq in Ha, Hr, Hp. rewrite Ha, Hr, Hp, Z.eqb_refl. reflexivity.
Qed.

Lemma HandleEventAndContinue_populate (w : World) :
  custom_event_types_distinct w ->
  HandleEventAndContinue (populate_event w) w
  = (PlatformPopulateDevices populate_callback w, true).
Proof.
  intros (_ & _ & _ & Ha & Hr). unfold HandleEventAndContinue, populate_event. simpl.
  apply Z.eqb_neq in Ha, Hr. rewrite Ha, Hr, Z.eqb_refl. reflexivity.
Qed.

Lemma custom_event_types_distinct_frame (w w' : World) :
  frame w w' -> custom_event_types_distinct w -> custom_event_types_distinct w'.
Proof.
  intros F H. unfold custom_event_types_distinct in *.
  rewrite (frame_stop _ _ F), (frame_populate _ _ F). exact H.
Qed.

Lemma dispatch_queue_stops (q : list SDL_Event) : forall w stop,
  custom_event_types_distinct w ->
  stop = stop_event w ->
  snd (dispatch_queue (q ++ [stop]) w) = false.
Proof.
  induction q as [|e q IH]; intros w stop Hd ->; simpl.
  - assert (Hq : custom_event_types_distinct (with_queue [] w)) by exact Hd.
    change (stop_event w) with (stop_event (with_queue [] w)).
    rewrite (HandleEventAndContinue_stop (with_queue [] w) Hq). reflexivity.
  - pose proof (frame_HandleEventAndContinue e (with_queue (q ++ [stop_event w]) w)) as Hf.
    destruct (HandleEventAndContinue e (with_queue (q ++ [stop_event w]) w))
      as [w' continue].
    simpl in Hf. destruct continue; [|reflexivity].
    assert (F : frame w w') by (eapply frame_trans; [apply frame_with_queue|exact Hf]).
    apply IH.
    + eapply custom_event_types_distinct_frame; eassumption.
    + unfold stop_event. rewrite (frame_stop _ _ F). reflexivity.
Qed.

(** ** [Init] *)

Lemma Init_when_SDL_Init_returns_0 (w : World) :
  joinable (s_hotplug_thread w) = false ->
  sdl_init_result (sdl w) = 0 ->
  Init w = Some (hotplug_thread_return
                   (log Call_s_init_event_Set
                      (log (Call_ERROR_LOG "SDL failed to initialize") w))).
Proof.
  intros Hj H0. unfold Init, hotplug_thread_startup. rewrite Hj, H0. reflexivity.
Qed.

Lemma Init_when_RegisterEvents_fails (w : World) :
  joinable (s_hotplug_thread w) = false ->
  sdl_init_result (sdl w) <> 0 ->
  to_Uint32 (sdl_register_result (sdl w)) = to_Uint32 (-1) ->
  exists w', Init w = Some w' /\
             s_hotplug_thread w' = Finished /\
             In (Call_ERROR_LOG "SDL failed to register custom events") (trace w') /\
             sdl_queue (sdl w') = sdl_queue (sdl w).
Proof.
  intros Hj H0 Hr. unfold Init, hotplug_thread_startup. rewrite Hj.
  apply Z.eqb_neq in H0. rewrite H0. simpl.
  destruct (_ && _); simpl; rewrite Hr; simpl;
    (eexists; split; [reflexivity|]; simpl; repeat split;
     apply in_or_app; left; apply in_or_app; left; apply in_or_app; right; left; reflexivity).
Qed.

(** C2, evaluated.  The driver starts successfully ([SDL_Init] returns 0)
    and would allocate the custom event ids: the thread logs "SDL failed to
    initialize" and returns without taking the queued add event.  The driver
    fails to start ([SDL_Init] returns -1): the thread logs nothing, goes
    on, drains the queue and enters its wait loop. *)
Theorem Init_takes_driver_success_for_failure :
  (exists w', Init (sample_world 0 [add_event 0]) = Some w' /\
     trace w' = [Call_ERROR_LOG "SDL failed to initialize"; Call_s_init_event_Set;
                 Call_SDL_Quit] /\
     s_hotplug_thread w' = Finished /\
     sdl_queue (sdl w') = [add_event 0]) /\
  (exists w', Init (sample_world (-1) [add_event 0]) = Some w' /\
     error_logs (trace w') = [] /\
     s_hotplug_thread w' = InWaitLoop /\
     sdl_queue (sdl w') = []).
Proof.
  split.
  - exists (hotplug_thread_return
              (log Call_s_init_event_Set
                 (log (Call_ERROR_LOG "SDL failed to initialize")
                    (sample_world 0 [add_event 0])))).
    split; [apply Init_when_SDL_Init_returns_0; reflexivity|].
    repeat split.
  - exists (hotplug_thread_startup (sample_world (-1) [add_event 0])).
    split; [reflexivity|]. repeat split; vm_compute; reflexivity.
Qed.

(** ** [DeInit] *)

Lemma hotplug_thread_run_trace (w : World) :
  exists l, trace (hotplug_thread_run w) = trace w ++ l.
Proof.
  unfold hotplug_thread_run.
  destruct (s_hotplug_thread w); try (exists []; symmetry; apply app_nil_r).
  pose proof (frame_dispatch_queue (sdl_queue (sdl w)) w) as F.
  destruct (dispatch_queue (sdl_queue (sdl w)) w) as [w' continue]. simpl in F.
  destruct (frame_trace _ _ F) as [l Hl].
  destruct continue; [exists l; exact Hl|].
  exists (l ++ [Call_SDL_Quit]). unfold hotplug_thread_return. simpl.
  rewrite Hl. symmetry. apply app_assoc.
Qed.

Lemma join_returns (w : World) :
  s_hotplug_thread w = Finished \/
  (s_hotplug_thread w = InWaitLoop /\ custom_event_types_distinct w /\
   exists q, sdl_queue (sdl w) = q ++ [stop_event w]) ->
  exists w', join w = Some w'.
Proof.
  intros [Hf|(Hl & Hd & q & Hq)]; unfold join, hotplug_thread_run.
  - rewrite Hf. rewrite Hf. eexists. reflexivity.
  - rewrite Hl, Hq.
    pose proof (dispatch_queue_stops q w (stop_event w) Hd eq_refl) as Hs.
    destruct (dispatch_queue (q ++ [stop_event w]) w) as [w' continue].
    simpl in Hs. subst continue. simpl. eexists. reflexivity.
Qed.

(** C8, as the code has it.  [DeInit] tests the thread handle, not whether a
    thread is running.  On a handle that is not joinable (a coordinator that
    was never initialised, or that was already shut down) it returns at once
    and changes nothing: no event posted, no join.  On a joinable handle it
    posts the stop event and joins.  If the thread has already returned, as
    after a failed start-up, the join returns at once and nothing is
    dispatched.  If the thread is in its wait loop, it dispatches the queue
    with the stop event at its end, its loop ends on a stop event, its body
    returns ([SDL_Quit] is the last call) and only then does [DeInit]
    return.  [DeInit] returns only when the thread has returned; afterwards
    the handle is not joinable and a second [DeInit] changes nothing. *)
Theorem DeInit_joins_the_thread (w : World) :
  (joinable (s_hotplug_thread w) = false -> DeInit w = Some w) /\
  (s_hotplug_thread w = Finished ->
     DeInit w = Some (with_thread NotStarted (SDL_PushEvent (stop_event w) w))) /\
  (s_hotplug_thread w = InWaitLoop ->
   custom_event_types_distinct w ->
     exists w1,
       dispatch_queue (sdl_queue (sdl w) ++ [stop_event w])
                      (SDL_PushEvent (stop_event w) w) = (w1, false) /\
       DeInit w = Some (with_thread NotStarted (hotplug_thread_return w1)) /\
       trace (with_thread NotStarted (hotplug_thread_return w1))
       = trace w1 ++ [Call_SDL_Quit] /\
       exists l, trace w1 = trace w ++ [Call_SDL_PushEvent (stop_event w)] ++ l) /\
  (forall w', DeInit w = Some w' ->
     s_hotplug_thread w' = NotStarted /\
     DeInit w' = Some w' /\
     (joinable (s_hotplug_thread w) = true ->
        In (Call_SDL_PushEvent (stop_event w)) (trace w') /\
        s_hotplug_thread (hotplug_thread_run (SDL_PushEvent (stop_event w) w)) = Finished /\
        w' = with_thread NotStarted
               (hotplug_thread_run (SDL_PushEvent (stop_event w) w)))) /\
  (joinable (s_hotplug_thread w) = true ->
   DeInit w = None ->
   s_hotplug_thread (hotplug_thread_run (SDL_PushEvent (stop_event w) w)) = InWaitLoop).
Proof.
  set (w0 := SDL_PushEvent (stop_event w) w).
  assert (Hd : joinable (s_hotplug_thread w) = true -> DeInit w = join w0)
    by (intros Hj; unfold DeInit; rewrite Hj; reflexivity).
  split; [|split; [|split; [|split]]].
  - intros H. unfold DeInit. rewrite H. reflexivity.
  - intros Hf. rewrite Hd by (rewrite Hf; reflexivity).
    unfold join, hotplug_thread_run.
    change (s_hotplug_thread w0) with (s_hotplug_thread w). rewrite Hf.
    change (s_hotplug_thread w0) with (s_hotplug_thread w). rewrite Hf. reflexivity.
  - intros Hl Hdist. rewrite Hd by (rewrite Hl; reflexivity).
    pose proof (dispatch_queue_stops (sdl_queue (sdl w)) w0 (stop_event w) Hdist eq_refl)
      as Hs.
    pose proof (frame_dispatch_queue (sdl_queue (sdl w) ++ [stop_event w]) w0) as F.
    unfold join, hotplug_thread_run.
    change (s_hotplug_thread w0) with (s_hotplug_thread w). rewrite Hl.
    change (sdl_queue (sdl w0)) with (sdl_queue (sdl w) ++ [stop_event w]).
    destruct (dispatch_queue (sdl_queue (sdl w) ++ [stop_event w]) w0) as [w1 continue].
    simpl in Hs, F. subst continue. exists w1.
    split; [reflexivity|]. split; [reflexivity|]. split; [reflexivity|].
    destruct (frame_trace _ _ F) as [l Htr]. exists l. rewrite Htr.
    change (trace w0) with (trace w ++ [Call_SDL_PushEvent (stop_event w)]).
    symmetry. apply app_assoc.
  - intros w' Hw'.
    assert (Hn : s_hotplug_thread w' = NotStarted).
    { unfold DeInit in Hw'. destruct (s_hotplug_thread w) eqn:Et; simpl in Hw'.
      - injection Hw' as <-. exact Et.
      - unfold join in Hw'.
        destruct (s_hotplug_thread (hotplug_thread_run _)); try discriminate Hw'.
        injection Hw' as <-. reflexivity.
      - unfold join in Hw'.
        destruct (s_hotplug_thread (hotplug_thread_run _)); try discriminate Hw'.
        injection Hw' as <-. reflexivity. }
    split; [exact Hn|]. split; [unfold DeInit; rewrite Hn; reflexivity|].
    intros Hj. rewrite (Hd Hj) in Hw'. unfold join in Hw'.
    destruct (hotplug_thread_run_trace w0) as [l Hl].
    destruct (s_hotplug_thread (hotplug_thread_run w0)) eqn:Er; try discriminate Hw'.
    injection Hw' as <-. split; [|split; reflexivity].
    simpl. rewrite Hl. apply in_or_app. left.
    change (trace w0) with (trace w ++ [Call_SDL_PushEvent (stop_event w)]).
    apply in_or_app. right. left. reflexivity.
  - intros Hj Hnone. rewrite (Hd Hj) in Hnone. unfold join in Hnone.
    destruct (s_hotplug_thread (hotplug_thread_run w0)) eqn:Er;
      [exfalso|reflexivity|discriminate Hnone].
    unfold hotplug_thread_run in Er.
    change (s_hotplug_thread w0) with (s_hotplug_thread w) in Er.
    destruct (s_hotplug_thread w) eqn:Et; try discriminate Hj.
    + pose proof (frame_dispatch_queue (sdl_queue (sdl w0)) w0) as F.
      destruct (dispatch_queue (sdl_queue (sdl w0)) w0) as [w1 continue].
      simpl in F. destruct continue; [|discriminate Er].
      rewrite (frame_thread _ _ F) in Er.
      change (s_hotplug_thread w0) with (s_hotplug_thread w) in Er.
      rewrite Et in Er. discriminate Er.
    + change (s_hotplug_thread w0) with (s_hotplug_thread w) in Er.
      rewrite Et in Er. discriminate Er.
Qed.

Lemma DeInit_joins_the_thread_witness :
  exists w1,
    dispatch_queue (sdl_queue (sdl sample_running_world) ++ [stop_event sample_running_world])
                   (SDL_PushEvent (stop_event sample_running_world) sample_running_world)
    = (w1, false) /\
    DeInit sample_running_world = Some (with_thread NotStarted (hotplug_thread_return w1)) /\
    trace (with_thread NotStarted (hotplug_thread_return w1))
    = trace w1 ++ [Call_SDL_Quit] /\
    exists l, trace w1 = trace sample_running_world
                         ++ [Call_SDL_PushEvent (stop_event sample_running_world)] ++ l.
Proof.
  apply (proj1 (proj2 (proj2 (DeInit_joins_the_thread sample_running_world)))).
  - reflexivity.
  - vm_compute. repeat split; discriminate.
Defined.

(** Counterexample to C8 as stated.  After an [Init] whose thread returned
    early no background thread is running, yet the handle is joinable:
    [DeInit] posts an event (of type 0, no stop type having been allocated)
    and joins, and the state changes. *)
Lemma DeInit_after_early_return_posts_and_joins :
  exists w1 w2,
    Init (sample_world 0 []) = Some w1 /\
    s_hotplug_thread w1 = Finished /\
    DeInit w1 = Some w2 /\
    trace w2 = trace w1 ++ [Call_SDL_PushEvent {| e_type := 0; e_which := 0 |}] /\
    sdl_queue (sdl w1) = [] /\
    sdl_queue (sdl w2) = [{| e_type := 0; e_which := 0 |}] /\
    s_hotplug_thread w2 = NotStarted /\
    w2 <> w1.
Proof.
  exists (hotplug_thread_return
            (log Call_s_init_event_Set
               (log (Call_ERROR_LOG "SDL failed to initialize") (sample_world 0 [])))).
  eexists. split; [apply Init_when_SDL_Init_returns_0; reflexivity|].
  split; [reflexivity|]. split; [reflexivity|].
  repeat split.
  intros H. apply (f_equal s_hotplug_thread) in H. discriminate H.
Qed.

Lemma DeInit_sample :
  option_map (fun w => (s_hotplug_thread w, trace w, sdl_queue (sdl w)))
    (DeInit sample_running_world)
  = Some (NotStarted,
          [Call_SDL_PushEvent {| e_type := SDL_USEREVENT; e_which := 0 |}; Call_SDL_Quit],
          []).
Proof. reflexivity. Qed.


(** ** Start-up drain and later population *)

Lemma Device_Device_joysticks uninit (s s' : SDL) controller index :
  sdl_joysticks s = sdl_joysticks s' ->
  Device_Device uninit s controller index = Device_Device uninit s' controller index.
Proof.
  intros H. unfold Device_Device, Device_build, SDL_GameControllerName.
  rewrite H. reflexivity.
Qed.

Lemma populate_callback_single (w : World) (js : Joystick) :
  sdl_joysticks (sdl w) = [js] ->
  populate_callback w = OpenAndAddDevice 0 w.
Proof.
  intros H. unfold populate_callback. rewrite H.
  cbn [List.length populate_loop]. unfold SDL_NumJoysticks. rewrite H. reflexivity.
Qed.

Lemma SDL_GameControllerOpen_first (s : SDL) (js : Joystick) (l : list Joystick) :
  sdl_joysticks s = js :: l ->
  js_is_gamecontroller js = true ->
  SDL_GameControllerOpen s 0 = Some 0%nat.
Proof.
  intros H Hgc. unfold SDL_GameControllerOpen. rewrite H. simpl. rewrite Hgc. reflexivity.
Qed.

Lemma populate_when_waiting (w : World) (js : Joystick) :
  s_hotplug_thread w = InWaitLoop ->
  custom_event_types_distinct w ->
  sdl_queue (sdl w) = [] ->
  ci_accepting (g_controller_interface w) = true ->
  sdl_joysticks (sdl w) = [js] ->
  js_is_gamecontroller js = true ->
  ci_devices (g_controller_interface (hotplug_thread_run (PopulateDevices w)))
  = filter (fun c => negb (String.eqb (CoreDevice_GetSource c) Device_GetSource))
           (ci_devices (g_controller_interface w))
    ++ [SDL_GC_Device (Device_Device (uninit_storage w) (sdl w) 0%nat 0)] /\
  s_hotplug_thread (hotplug_thread_run (PopulateDevices w)) = InWaitLoop.
Proof.
  intros Ht Hd Hq Hacc Hjs Hgc.
  assert (Hp : PopulateDevices w = SDL_PushEvent (populate_event w) w).
  { unfold PopulateDevices. rewrite Ht. reflexivity. }
  rewrite Hp.
  assert (Hr : hotplug_thread_run (SDL_PushEvent (populate_event w) w)
               = PlatformPopulateDevices populate_callback
                   (with_queue [] (SDL_PushEvent (populate_event w) w))).
  { unfold hotplug_thread_run.
    change (s_hotplug_thread (SDL_PushEvent (populate_event w) w)) with (s_hotplug_thread w).
    rewrite Ht.
    change (sdl_queue (sdl (SDL_PushEvent (populate_event w) w)))
      with (sdl_queue (sdl w) ++ [populate_event w]).
    rewrite Hq.
    change ([] ++ [populate_event w]) with [populate_event w].
    unfold dispatch_queue.
    change (populate_event w)
      with (populate_event (with_queue [] (SDL_PushEvent (populate_event w) w))) at 1.
    rewrite HandleEventAndContinue_populate; [reflexivity|exact Hd]. }
  rewrite Hr. clear Hr Hp.
  set (w1 := with_queue [] (SDL_PushEvent (populate_event w) w)).
  unfold PlatformPopulateDevices.
  set (w2 := with_devices _ (log Call_PlatformPopulateDevices w1)).
  assert (Hjs2 : sdl_joysticks (sdl w2) = [js]) by exact Hjs.
  rewrite (populate_callback_single w2 js Hjs2).
  rewrite (OpenAndAddDevice_opened 0 w2 0%nat
             (SDL_GameControllerOpen_first (sdl w2) js [] Hjs2 Hgc)).
  rewrite (Device_Device_joysticks (uninit_storage w2) (sdl w2) (sdl w) 0%nat 0 eq_refl).
  unfold AddDevice.
  change (ci_accepting (g_controller_interface (log _ w2)))
    with (ci_accepting (g_controller_interface w)).
  rewrite Hacc. split; [reflexivity|exact Ht].
Qed.

Lemma to_Uint32_succ (z : Z) :
  to_Uint32 z <> to_Uint32 (-1) -> to_Uint32 (to_Uint32 z + 1) = to_Uint32 z + 1.
Proof.
  unfold to_Uint32. intros H.
  assert (Hb : 0 <= z mod 2 ^ 32 < 2 ^ 32) by (apply Z.mod_pos_bound; lia).
  change ((-1) mod 2 ^ 32) with (2 ^ 32 - 1) in H.
  apply Z.mod_small. lia.
Qed.

Lemma hotplug_thread_startup_with_queued_stop (w : World) (q : list SDL_Event) :
  ci_accepting (g_controller_interface w) = false ->
  ci_devices (g_controller_interface w) = [] ->
  SDL_USEREVENT <= to_Uint32 (sdl_register_result (sdl w)) ->
  sdl_queue (sdl w)
  = q ++ [{| e_type := to_Uint32 (sdl_register_result (sdl w)); e_which := 0 |}] ->
  ci_devices (g_controller_interface (hotplug_thread_startup w)) = [] /\
  ci_accepting (g_controller_interface (hotplug_thread_startup w)) = false /\
  s_hotplug_thread (hotplug_thread_startup w) = Finished.
Proof.
  intros Hacc Hdev Huser Hq. unfold hotplug_thread_startup.
  destruct (sdl_init_result (sdl w) =? 0); [repeat split; assumption|].
  set (w4 := log (Call_SDL_SetHint SDL_HINT_JOYSTICK_HIDAPI_JOY_CONS "1") _).
  assert (F4 : frame w w4).
  { subst w4. destruct (_ && _);
      repeat (eapply frame_trans; [|apply frame_log]); apply frame_refl. }
  assert (Hsdl : sdl w4 = sdl w) by (subst w4; destruct (_ && _); reflexivity).
  assert (Hci : g_controller_interface w4 = g_controller_interface w)
    by (subst w4; destruct (_ && _); reflexivity).
  clearbody w4. rewrite Hsdl.
  set (start := to_Uint32 (sdl_register_result (sdl w))) in *.
  destruct (Z.eqb_spec start (to_Uint32 (-1))) as [E|N].
  { simpl. rewrite Hci. repeat split; assumption. }
  set (w5 := with_event_types start (to_Uint32 (start + 1)) w4).
  assert (Hd5 : custom_event_types_distinct w5).
  { unfold custom_event_types_distinct, w5. simpl.
    pose proof (to_Uint32_succ _ N) as Hs. fold start in Hs. rewrite Hs.
    unfold SDL_USEREVENT, SDL_CONTROLLERDEVICEADDED, SDL_CONTROLLERDEVICEREMOVED in *.
    lia. }
  change (sdl w5) with (sdl w4). rewrite Hsdl, Hq.
  pose proof (dispatch_queue_stops q w5 _ Hd5 eq_refl) as Hstop.
  assert (Hacc5 : ci_accepting (g_controller_interface w5) = false)
    by (change (g_controller_interface w5) with (g_controller_interface w4);
        rewrite Hci; exact Hacc).
  assert (Hdev5 : ci_devices (g_controller_interface w5) = [])
    by (change (g_controller_interface w5) with (g_controller_interface w4);
        rewrite Hci; exact Hdev).
  pose proof (dispatch_queue_not_accepting (q ++ [stop_event w5]) w5 Hacc5 Hdev5) as Hnone.
  pose proof (frame_dispatch_queue (q ++ [stop_event w5]) w5) as F6.
  change (stop_event w5) with {| e_type := start; e_which := 0 |} in Hstop, Hnone, F6.
  destruct (dispatch_queue (q ++ [{| e_type := start; e_which := 0 |}]) w5) as [w6 continue].
  simpl in Hstop, Hnone, F6. subst continue.
  simpl. repeat split; [exact Hnone|].
  rewrite (frame_accepting _ _ F6). exact Hacc5.
Qed.

Lemma PopulateDevices_after_thread_left (w : World) :
  s_hotplug_thread w = Finished ->
  hotplug_thread_run (PopulateDevices (host_starts_accepting w))
  = SDL_PushEvent (populate_event w) (host_starts_accepting w).
Proof.
  intros H. unfold PopulateDevices, hotplug_thread_run.
  change (s_hotplug_thread (host_starts_accepting w)) with (s_hotplug_thread w).
  rewrite H. simpl negb. cbv iota.
  change (s_hotplug_thread (SDL_PushEvent _ (host_starts_accepting w)))
    with (s_hotplug_thread w).
  rewrite H. reflexivity.
Qed.

(** C6, as the code has it.  Before [Init] no thread is running, the queue
    holds [add(0); stop], where stop carries the type [SDL_RegisterEvents]
    hands out (at or above [SDL_USEREVENT]), and the registry holds no device
    and does not accept devices yet.  Then the device list is empty when
    [Init] returns, and the hotplug thread has already returned: it met the
    queued stop event while draining, or it returned before the drain.  A later
    [PopulateDevices] therefore only posts a populate event that nobody
    dispatches, and no adapter is registered.  Exactly one adapter, for
    index 0, is registered by [PopulateDevices] when the thread is in its
    wait loop with nothing else queued, the two custom event types differ
    from each other and from the driver's add and remove types, the registry
    accepts devices, and device 0 is the one device attached and the driver
    opens it. *)
Theorem populate_after_startup_drain (w : World) :
  joinable (s_hotplug_thread w) = false ->
  ci_accepting (g_controller_interface w) = false ->
  ci_devices (g_controller_interface w) = [] ->
  SDL_USEREVENT <= to_Uint32 (sdl_register_result (sdl w)) ->
  sdl_queue (sdl w)
  = [add_event 0;
     {| e_type := to_Uint32 (sdl_register_result (sdl w)); e_which := 0 |}] ->
  (exists w1,
     Init w = Some w1 /\
     ci_devices (g_controller_interface w1) = [] /\
     s_hotplug_thread w1 = Finished /\
     hotplug_thread_run (PopulateDevices (host_starts_accepting w1))
     = SDL_PushEvent (populate_event w1) (host_starts_accepting w1) /\
     ci_devices (g_controller_interface
                   (hotplug_thread_run (PopulateDevices (host_starts_accepting w1)))) = []) /\
  (forall (w2 : World) (js : Joystick),
     s_hotplug_thread w2 = InWaitLoop ->
     custom_event_types_distinct w2 ->
     sdl_queue (sdl w2) = [] ->
     ci_accepting (g_controller_interface w2) = true ->
     sdl_joysticks (sdl w2) = [js] ->
     js_is_gamecontroller js = true ->
     ci_devices (g_controller_interface (hotplug_thread_run (PopulateDevices w2)))
     = filter (fun c => negb (String.eqb (CoreDevice_GetSource c) Device_GetSource))
              (ci_devices (g_controller_interface w2))
       ++ [SDL_GC_Device (Device_Device (uninit_storage w2) (sdl w2) 0%nat 0)] /\
     Device_GetPreferredId (Device_Device (uninit_storage w2) (sdl w2) 0%nat 0) = Some 0 /\
     s_hotplug_thread (hotplug_thread_run (PopulateDevices w2)) = InWaitLoop).
Proof.
  intros Hj Hacc Hdev Huser Hq. split.
  - exists (hotplug_thread_startup w).
    destruct (hotplug_thread_startup_with_queued_stop w [add_event 0] Hacc Hdev Huser Hq)
      as (Hd1 & Ha1 & Ht1).
    split; [unfold Init; rewrite Hj; reflexivity|].
    split; [exact Hd1|]. split; [exact Ht1|].
    rewrite (PopulateDevices_after_thread_left _ Ht1).
    split; [reflexivity|exact Hd1].
  - intros w2 js Ht Hd Hq2 Hacc2 Hjs Hgc.
    destruct (populate_when_waiting w2 js Ht Hd Hq2 Hacc2 Hjs Hgc) as [H1 H2].
    split; [exact H1|]. split; [reflexivity|exact H2].
Qed.

Lemma populate_after_startup_drain_witness :
  exists w1,
    Init (sample_world (-1) [add_event 0; {| e_type := SDL_USEREVENT; e_which := 0 |}])
    = Some w1 /\
    ci_devices (g_controller_interface w1) = [] /\
    s_hotplug_thread w1 = Finished /\
    hotplug_thread_run (PopulateDevices (host_starts_accepting w1))
    = SDL_PushEvent (populate_event w1) (host_starts_accepting w1) /\
    ci_devices (g_controller_interface
                  (hotplug_thread_run (PopulateDevices (host_starts_accepting w1)))) = [].
Proof.
  apply (proj1 (populate_after_startup_drain
                  (sample_world (-1)
                     [add_event 0; {| e_type := SDL_USEREVENT; e_which := 0 |}])
                  eq_refl eq_refl eq_refl ltac:(vm_compute; discriminate) eq_refl)).
Defined.

(** Counterexample to C6 as stated.  Device 0 is present and can be opened,
    the queue holds [add(0); stop] and the registry does not accept devices: after
    [Init], once the host accepts devices, [PopulateDevices] registers no
    adapter, whether the thread drained the queue ([SDL_Init] returned -1)
    or left before ([SDL_Init] returned 0). *)
Lemma populate_after_queued_stop_registers_nothing :
  (exists w1,
     Init (sample_world (-1) [add_event 0; {| e_type := SDL_USEREVENT; e_which := 0 |}])
     = Some w1 /\
     ci_devices (g_controller_interface w1) = [] /\
     sdl_queue (sdl w1) = [] /\
     SDL_GameControllerOpen (sdl w1) 0 = Some 0%nat /\
     ci_devices (g_controller_interface
                   (hotplug_thread_run (PopulateDevices (host_starts_accepting w1)))) = [] /\
     ci_devices (g_controller_interface
                   (hotplug_thread_run (PopulateDevices (host_starts_accepting w1))))
     <> [SDL_GC_Device (Device_Device (uninit_storage w1) (sdl w1) 0%nat 0)]) /\
  (exists w1,
     Init (sample_world 0 [add_event 0; {| e_type := SDL_USEREVENT; e_which := 0 |}])
     = Some w1 /\
     ci_devices (g_controller_interface w1) = [] /\
     SDL_GameControllerOpen (sdl w1) 0 = Some 0%nat /\
     ci_devices (g_controller_interface
                   (hotplug_thread_run (PopulateDevices (host_starts_accepting w1)))) = []).
Proof.
  split.
  - exists (hotplug_thread_startup
              (sample_world (-1)
                 [add_event 0; {| e_type := SDL_USEREVENT; e_which := 0 |}])).
    split; [reflexivity|].
    assert (E : ci_devices (g_controller_interface
                  (hotplug_thread_run (PopulateDevices (host_starts_accepting
                     (hotplug_thread_startup
                        (sample_world (-1)
                           [add_event 0; {| e_type := SDL_USEREVENT; e_which := 0 |}]))))))
                = []) by (vm_compute; reflexivity).
    repeat split; try (vm_compute; reflexivity).
    rewrite E. discriminate.
  - exists (hotplug_thread_startup
              (sample_world 0
                 [add_event 0; {| e_type := SDL_USEREVENT; e_which := 0 |}])).
    split; [reflexivity|]. repeat split; vm_compute; reflexivity.
Qed.

(** With the thread in its wait loop, [PopulateDevices] does register the
    one adapter. *)
Lemma populate_when_waiting_sample :
  map CoreDevice_GetSource
    (ci_devices (g_controller_interface
                   (hotplug_thread_run (PopulateDevices sample_running_world))))
  = ["XInput"; "SDL_gamecontroller"].
Proof. vm_compute. reflexivity. Qed.

(** * Further properties *)

(** ** What the controls read *)

Lemma quot_interior (a b : Z) : - b < a < b -> Z.quot a b = 0.
Proof.
  intros H. destruct (Z.le_gt_cases 0 a) as [Hp|Hn].
  - apply Z.quot_small. lia.
  - replace a with (- (- a)) by lia.
    rewrite Z.quot_opp_l by lia. rewrite Z.quot_small by lia. reflexivity.
Qed.

Lemma quot_by_AXIS_MAX (raw : Z) :
  is_Sint16 raw ->
  Z.quot raw 32767 = if raw =? 32767 then 1 else if raw <=? -32767 then -1 else 0.
Proof.
  unfold is_Sint16. intros H.
  destruct (Z.eqb_spec raw 32767) as [->|N]; [reflexivity|].
  destruct (Z.leb_spec raw (-32767)) as [L|G].
  - assert (E : raw = -32768 \/ raw = -32767) by lia.
    destruct E as [-> | ->]; reflexivity.
  - apply quot_interior. lia.
Qed.

Lemma quot_by_AXIS_MIN_stored (raw : Z) :
  is_Sint16 raw ->
  Z.quot raw 32768 = if raw =? -32768 then -1 else 0.
Proof.
  unfold is_Sint16. intros H.
  destruct (Z.eqb_spec raw (-32768)) as [->|N]; [reflexivity|].
  apply quot_interior. lia.
Qed.

(** X1. A stick-axis control reads only -1, 0 or 1.  With the range stored
    for the positive polarity (32767) a 16-bit sample reads 1 only at 32767,
    -1 at -32767 and -32768, and 0 everywhere between; with the range stored
    for the negative polarity (32768) it reads -1 only at -32768 and 0 for
    every other sample. *)
Theorem Axis_GetState_is_three_valued (s : SDL) (m_level : ControlState) (k : nat)
    (gc : SDL_GameController) (def : AxisDef) :
  nth_error named_stick_axis k = Some def ->
  is_Sint16 (SDL_GameControllerGetAxis s gc (AxisDef_bitmask def)) ->
  let raw := SDL_GameControllerGetAxis s gc (AxisDef_bitmask def) in
  Input_GetState s m_level (new_Axis (Z.of_nat k) gc SDL_JOYSTICK_AXIS_MAX)
  = Some (if raw =? 32767 then 1%float
          else if raw <=? -32767 then (-1)%float else 0%float) /\
  Input_GetState s m_level (new_Axis (Z.of_nat k) gc SDL_JOYSTICK_AXIS_MIN)
  = Some (if raw =? -32768 then (-1)%float else 0%float).
Proof.
  intros H Hraw raw.
  assert (Hmax : to_Uint16 SDL_JOYSTICK_AXIS_MAX <> 0) by (vm_compute; discriminate).
  assert (Hmin : to_Uint16 SDL_JOYSTICK_AXIS_MIN <> 0) by (vm_compute; discriminate).
  unfold new_Axis, Input_GetState.
  rewrite (Axis_GetState_unfold s k gc def _ H Hmax).
  rewrite (Axis_GetState_unfold s k gc def _ H Hmin).
  fold raw.
  change (to_Uint16 SDL_JOYSTICK_AXIS_MAX) with 32767.
  change (to_Uint16 SDL_JOYSTICK_AXIS_MIN) with 32768.
  rewrite (quot_by_AXIS_MAX raw Hraw), (quot_by_AXIS_MIN_stored raw Hraw).
  split.
  - destruct (raw =? 32767); [reflexivity|]. destruct (raw <=? -32767); reflexivity.
  - destruct (raw =? -32768); reflexivity.
Qed.

Lemma Axis_GetState_is_three_valued_witness :
  Input_GetState (sample_driver 0 [] 20000) 0%float
    (new_Axis 0 0%nat SDL_JOYSTICK_AXIS_MAX) = Some 0%float.
Proof.
  apply (proj1 (Axis_GetState_is_three_valued (sample_driver 0 [] 20000) 0%float 0 0%nat
                  {| AxisDef_name := "Left X"; AxisDef_bitmask := SDL_CONTROLLER_AXIS_LEFTX |}
                  eq_refl ltac:(vm_compute; split; discriminate))).
Defined.

Lemma trigger_axis_index (k : nat) (def : AxisDef) :
  nth_error named_trigger_axis k = Some def ->
  at_index named_trigger_axis (to_u8 (Z.of_nat k)) = Some def.
Proof.
  destruct k as [|[|k]]; simpl; intros H; try exact H.
  destruct k; discriminate H.
Qed.

(** X2. A trigger control reads 1 only when the sample is the full 32767:
    every sample from 0 to 32766 reads 0, so a trigger held halfway reads as
    released. *)
Theorem Trigger_GetState_is_all_or_nothing (s : SDL) (m_level : ControlState) (k : nat)
    (gc : SDL_GameController) (def : AxisDef) :
  nth_error named_trigger_axis k = Some def ->
  0 <= SDL_GameControllerGetAxis s gc (AxisDef_bitmask def) <= 32767 ->
  let raw := SDL_GameControllerGetAxis s gc (AxisDef_bitmask def) in
  Input_GetState s m_level (new_Trigger (Z.of_nat k) gc SDL_JOYSTICK_AXIS_MAX)
  = Some (if raw =? 32767 then 1%float else 0%float) /\
  Input_GetName (new_Trigger (Z.of_nat k) gc SDL_JOYSTICK_AXIS_MAX)
  = Some (AxisDef_name def).
Proof.
  intros H Hraw raw. unfold new_Trigger, Input_GetState, Input_GetName,
    Trigger_GetState, Trigger_GetName.
  rewrite (trigger_axis_index k def H). fold raw.
  change (to_Uint16 SDL_JOYSTICK_AXIS_MAX) with 32767.
  split; [|reflexivity].
  change (32767 =? 0) with false. cbv iota.
  assert (Hs : is_Sint16 raw) by (unfold is_Sint16, raw; lia).
  rewrite (quot_by_AXIS_MAX raw Hs).
  destruct (Z.eqb_spec raw 32767); [reflexivity|].
  destruct (Z.leb_spec raw (-32767)); [exfalso; unfold raw in *; lia|reflexivity].
Qed.

Lemma Trigger_GetState_is_all_or_nothing_witness :
  Input_GetState (sample_driver 0 [] 0) 0%float
    (new_Trigger 1 0%nat SDL_JOYSTICK_AXIS_MAX) = Some 0%float.
Proof.
  apply (proj1 (Trigger_GetState_is_all_or_nothing (sample_driver 0 [] 0) 0%float 1 0%nat
                  {| AxisDef_name := "Trigger R";
                     AxisDef_bitmask := SDL_CONTROLLER_AXIS_TRIGGERRIGHT |}
                  eq_refl ltac:(vm_compute; split; discriminate))).
Defined.

Lemma button_index (k : nat) (def : ButtonDef) :
  nth_error named_buttons k = Some def ->
  at_index named_buttons (to_u8 (Z.of_nat k)) = Some def.
Proof.
  do 16 (destruct k as [|k]; [simpl; intros H; exact H|]).
  destruct k; discriminate.
Qed.

Lemma pressed_samples :
  forallb (fun r => Bool.eqb (0 <? ControlState_of_int (Z.of_nat r))%float
                             (negb (Z.of_nat r =? 0)))
          (seq 0 256) = true.
Proof. vm_compute. reflexivity. Qed.

Lemma pressed_iff_nonzero (raw : Z) :
  is_Uint8 raw ->
  (0 <? ControlState_of_int raw)%float = negb (raw =? 0).
Proof.
  unfold is_Uint8. intros H.
  pose proof (proj1 (forallb_forall _ _) pressed_samples (Z.to_nat raw)) as Hs.
  cbv beta in Hs. rewrite Z2Nat.id in Hs by lia.
  apply eqb_prop. apply Hs. apply in_seq. lia.
Qed.

(** X3. A button control reads exactly 1 when the driver reports a non-zero
    sample and exactly 0 when it reports 0; its name is the catalog name. *)
Theorem Button_GetState_is_binary (s : SDL) (m_level : ControlState) (k : nat)
    (gc : SDL_GameController) (def : ButtonDef) :
  nth_error named_buttons k = Some def ->
  is_Uint8 (SDL_GameControllerGetButton s gc (ButtonDef_bitmask def)) ->
  Input_GetState s m_level (new_Button (Z.of_nat k) gc)
  = Some (if SDL_GameControllerGetButton s gc (ButtonDef_bitmask def) =? 0
          then 0%float else 1%float) /\
  Input_GetName (new_Button (Z.of_nat k) gc) = Some (ButtonDef_name def).
Proof.
  intros H Hraw. unfold new_Button, Input_GetState, Input_GetName,
    Button_GetState, Button_GetName.
  rewrite (button_index k def H). split; [|reflexivity].
  rewrite (pressed_iff_nonzero _ Hraw).
  destruct (_ =? 0); reflexivity.
Qed.

Lemma Button_GetState_is_binary_witness :
  Input_GetState (sample_driver 0 [] 0) 0%float (new_Button 5 0%nat) = Some 0%float.
Proof.
  apply (proj1 (Button_GetState_is_binary (sample_driver 0 [] 0) 0%float 5 0%nat
                  {| ButtonDef_name := "Pad S";
                     ButtonDef_bitmask := SDL_CONTROLLER_BUTTON_DONW |}
                  eq_refl ltac:(vm_compute; split; discriminate))).
Defined.

(** ** The adapter's controls are well formed *)

(** X4. Every control the constructor builds indexes its catalog in range
    and divides by a non-zero range: for every driver state each input has a
    name and a reading, and each output has a name. *)
Theorem Device_Device_controls_are_defined (uninit : MotorVal.t) (s s' : SDL)
    (controller : SDL_GameController) (index : Z) (m_level : ControlState) :
  Forall (fun i => (exists name, Input_GetName i = Some name) /\
                   (exists v, Input_GetState s' m_level i = Some v))
         (Inputs (Device_Device uninit s controller index)) /\
  Forall (fun o => let '(Motor _ m_index) := o in
                   exists name, Motor_GetName m_index = Some name)
         (Outputs (Device_Device uninit s controller index)).
Proof.
  destruct (Device_Device_controls uninit s controller index) as [Hi Ho].
  rewrite Hi, Ho. cbn [map flat_map seq app]. split.
  - repeat (apply Forall_cons; [split; eexists; reflexivity|]). apply Forall_nil.
  - repeat (apply Forall_cons; [eexists; reflexivity|]). apply Forall_nil.
Qed.

(** ** Motors *)

Lemma Uint16_of_double_range (x : ControlState) (z : Z) :
  Uint16_of_double x = Some z -> 0 <= z <= 65535.
Proof.
  unfold Uint16_of_double. destruct (SF_trunc (Prim2SF x)) as [t|]; [|discriminate].
  destruct (0 <=? t) eqn:E0; destruct (t <=? 65535) eqn:E1; simpl; try discriminate.
  intros H. injection H as <-. apply Z.leb_le in E0, E1. lia.
Qed.

Section MotorProperties.

Variable RUMBLE_LENGTH_MS : Z.

(** X5. Setting a motor to the value it was just set to does nothing: the
    second call returns the same adapter and world, without a call to the
    driver.  Any call extends the trace by at most one rumble command, whose
    two magnitudes are the stored ones, and it keeps stored magnitudes
    within 0..65535. *)
Theorem Motor_SetState_twice (m : Output) (state : ControlState)
    (m_parent p : Device) (w w' : World) :
  Motor_SetState RUMBLE_LENGTH_MS m state m_parent w = Some (p, w') ->
  Motor_SetState RUMBLE_LENGTH_MS m state p w' = Some (p, w') /\
  (w' = w \/
   w' = log (Call_SDL_GameControllerRumble (m_controller p)
               (MotorVal.left (motor_val p)) (MotorVal.right (motor_val p))
               RUMBLE_LENGTH_MS) w) /\
  (0 <= MotorVal.left (motor_val m_parent) <= 65535 ->
   0 <= MotorVal.right (motor_val m_parent) <= 65535 ->
   0 <= MotorVal.left (motor_val p) <= 65535 /\
   0 <= MotorVal.right (motor_val p) <= 65535) /\
  Inputs p = Inputs m_parent /\ Outputs p = Outputs m_parent /\
  m_battery_level p = m_battery_level m_parent.
Proof.
  destruct m as [m_range m_index]. unfold Motor_SetState.
  destruct (Motor_magnitude m_range state) as [m_motor|] eqn:Hm; [|discriminate].
  pose proof (Uint16_of_double_range _ _ Hm) as Hr.
  destruct (m_index =? 0); simpl.
  - destruct (Z.eqb_spec m_motor (MotorVal.left (motor_val m_parent))) as [E|N]; simpl;
      intros H; injection H as <- <-; simpl.
    + rewrite E, Z.eqb_refl. simpl. repeat split; auto; lia.
    + rewrite Z.eqb_refl. simpl. repeat split; auto; lia.
  - destruct (Z.eqb_spec m_motor (MotorVal.right (motor_val m_parent))) as [E|N]; simpl;
      intros H; injection H as <- <-; simpl.
    + rewrite E, Z.eqb_refl. simpl. repeat split; auto; lia.
    + rewrite Z.eqb_refl. simpl. repeat split; auto; lia.
Qed.

End MotorProperties.

Lemma Motor_SetState_twice_witness :
  Motor_SetState 1000 (new_Motor 1 0xFFFF) 1%float
    (with_motor_val {| MotorVal.left := 11; MotorVal.right := 65535 |} sample_device)
    (log (Call_SDL_GameControllerRumble 0%nat 11 65535 1000) sample_running_world)
  = Some (with_motor_val {| MotorVal.left := 11; MotorVal.right := 65535 |} sample_device,
          log (Call_SDL_GameControllerRumble 0%nat 11 65535 1000) sample_running_world).
Proof.
  apply (proj1 (Motor_SetState_twice 1000 (new_Motor 1 0xFFFF) 1%float sample_device
                  (with_motor_val {| MotorVal.left := 11; MotorVal.right := 65535 |}
                     sample_device)
                  sample_running_world
                  (log (Call_SDL_GameControllerRumble 0%nat 11 65535 1000)
                     sample_running_world)
                  eq_refl)).
Defined.

(** ** Battery and identity *)

(** The battery control is the last input of an adapter and reads the
    adapter's battery level: 0 on a freshly constructed adapter, and after
    [UpdateInput] the level mapped from the driver's power state.
    [UpdateInput] changes nothing else of the adapter and makes exactly one
    call, [SDL_GameControllerUpdate]. *)
Lemma Battery_reads_what_UpdateInput_stored (uninit : MotorVal.t) (s : SDL)
    (controller : SDL_GameController) (index : Z) (d : Device) (w : World) :
  nth_error (Inputs (Device_Device uninit s controller index)) 26 = Some Battery /\
  Input_GetState s (m_battery_level (Device_Device uninit s controller index)) Battery
  = Some 0%float /\
  Input_GetState (sdl (snd (Device_UpdateInput d w)))
    (m_battery_level (fst (Device_UpdateInput d w))) Battery
  = Some (battery_level_of
            (SDL_JoystickCurrentPowerLevel (sdl w) (Device_GetSDLJoystick d))) /\
  fst (Device_UpdateInput d w)
  = with_battery_level (m_battery_level (fst (Device_UpdateInput d w))) d /\
  snd (Device_UpdateInput d w) = log Call_SDL_GameControllerUpdate w /\
  Battery_IsDetectable = false.
Proof. repeat split. Qed.

(** X6. The preferred id of an adapter is the device index truncated to 8
    bits: it lies in 0..255, equals the index for indices 0..255, and two
    indices 256 apart get the same id. *)
Theorem GetPreferredId_is_index_mod_256 (uninit : MotorVal.t) (s : SDL)
    (controller : SDL_GameController) (index : Z) :
  Device_GetPreferredId (Device_Device uninit s controller index) = Some (index mod 256) /\
  0 <= index mod 256 < 256 /\
  (0 <= index < 256 ->
   Device_GetPreferredId (Device_Device uninit s controller index) = Some index) /\
  Device_GetPreferredId (Device_Device uninit s controller (index + 256))
  = Device_GetPreferredId (Device_Device uninit s controller index).
Proof.
  assert (H : forall i, Device_GetPreferredId (Device_Device uninit s controller i)
                        = Some (i mod 256)) by reflexivity.
  split; [apply H|]. split; [apply Z.mod_pos_bound; lia|]. split.
  - intros Hr. rewrite H, Z.mod_small by lia. reflexivity.
  - rewrite !H. f_equal.
    replace (index + 256) with (index + 1 * 256) by lia. apply Z.mod_add. lia.
Qed.

(** ** Event handling: what it does and what it never does *)

Lemma handled_refl (w : World) : handled w w.
Proof.
  constructor; [reflexivity|apply frame_refl|].
  exists []. split; [symmetry; apply app_nil_r|reflexivity].
Qed.

Lemma handled_trans (w1 w2 w3 : World) : handled w1 w2 -> handled w2 w3 -> handled w1 w3.
Proof.
  intros [s1 f1 (l1 & t1 & c1)] [s2 f2 (l2 & t2 & c2)].
  constructor; [congruence|eapply frame_trans; eassumption|].
  exists (l1 ++ l2). split.
  - rewrite t2, t1. symmetry. apply app_assoc.
  - unfold registry_calls_only in *. rewrite forallb_app, c1, c2. reflexivity.
Qed.

Lemma handled_with_devices (l : list CoreDevice) (w : World) : handled w (with_devices l w).
Proof.
  constructor; [reflexivity|apply frame_with_devices|].
  exists []. split; [symmetry; apply app_nil_r|reflexivity].
Qed.

Lemma handled_AddDevice (d : Device) (w : World) : handled w (AddDevice d w).
Proof.
  assert (H : handled w (log (Call_AddDevice d) w)).
  { constructor; [reflexivity|apply frame_log|].
    exists [Call_AddDevice d]. split; reflexivity. }
  unfold AddDevice. destruct (ci_accepting _); [|exact H].
  eapply handled_trans; [exact H|apply handled_with_devices].
Qed.

Lemma handled_RemoveDevice which callback (w : World) :
  handled w (RemoveDevice which callback w).
Proof.
  unfold RemoveDevice. eapply handled_trans; [|apply handled_with_devices].
  constructor; [reflexivity|apply frame_log|].
  exists [Call_RemoveDevice which]. split; reflexivity.
Qed.

Lemma handled_OpenAndAddDevice (index : Z) (w : World) : handled w (OpenAndAddDevice index w).
Proof.
  unfold OpenAndAddDevice, add_if_has_controls.
  destruct (SDL_GameControllerOpen _ _); [|apply handled_refl].
  destruct (_ || _); [apply handled_AddDevice|apply handled_refl].
Qed.

Lemma handled_populate_loop (fuel : nat) : forall i w, handled w (populate_loop fuel i w).
Proof.
  induction fuel as [|fuel IH]; intros i w; simpl; [apply handled_refl|].
  destruct (i <? _); [|apply handled_refl].
  eapply handled_trans; [apply handled_OpenAndAddDevice|apply IH].
Qed.

Lemma handled_PlatformPopulateDevices (w : World) :
  handled w (PlatformPopulateDevices populate_callback w).
Proof.
  unfold PlatformPopulateDevices, populate_callback.
  eapply handled_trans; [|eapply handled_trans;
                           [apply handled_with_devices|apply handled_populate_loop]].
  constructor; [reflexivity|apply frame_log|].
  exists [Call_PlatformPopulateDevices]. split; reflexivity.
Qed.

Lemma handled_HandleEventAndContinue (e : SDL_Event) (w : World) :
  handled w (fst (HandleEventAndContinue e w)).
Proof.
  unfold HandleEventAndContinue.
  destruct (e_type e =? SDL_CONTROLLERDEVICEADDED); [apply handled_OpenAndAddDevice|].
  destruct (e_type e =? SDL_CONTROLLERDEVICEREMOVED); [apply handled_RemoveDevice|].
  destruct (e_type e =? s_populate_event_type w); [apply handled_PlatformPopulateDevices|].
  destruct (e_type e =? s_stop_event_type w); apply handled_refl.
Qed.

Lemma HandleEventAndContinue_continue (e : SDL_Event) (w : World) :
  snd (HandleEventAndContinue e w) = negb (is_stop_event w e) /\
  (is_stop_event w e = true -> HandleEventAndContinue e w = (w, false)) /\
  (is_unknown_event w e = true -> HandleEventAndContinue e w = (w, true)).
Proof.
  unfold HandleEventAndContinue, is_stop_event, is_unknown_event.
  destruct (e_type e =? SDL_CONTROLLERDEVICEADDED);
    destruct (e_type e =? SDL_CONTROLLERDEVICEREMOVED);
    destruct (e_type e =? s_populate_event_type w);
    destruct (e_type e =? s_stop_event_type w); simpl;
    repeat split; intros; try reflexivity; discriminate.
Qed.

Lemma error_logs_app (l1 l2 : list Effect) :
  error_logs (l1 ++ l2) = error_logs l1 ++ error_logs l2.
Proof.
  induction l1 as [|e l1 IH]; simpl; [reflexivity|].
  destruct e; simpl; rewrite IH; reflexivity.
Qed.

Lemma error_logs_registry_calls (l : list Effect) :
  registry_calls_only l = true -> error_logs l = [].
Proof.
  induction l as [|e l IH]; simpl; [reflexivity|].
  destruct e; simpl; try discriminate; exact IH.
Qed.

Lemma is_stop_event_frame (w w' : World) (e : SDL_Event) :
  frame w w' -> is_stop_event w' e = is_stop_event w e.
Proof.
  intros F. unfold is_stop_event.
  rewrite (frame_stop _ _ F), (frame_populate _ _ F). reflexivity.
Qed.

Lemma dispatch_queue_calls (q : list SDL_Event) : forall w,
  exists l, trace (fst (dispatch_queue q w)) = trace w ++ l /\
            registry_calls_only l = true.
Proof.
  induction q as [|e q IH]; intros w; simpl.
  - exists []. split; [symmetry; apply app_nil_r|reflexivity].
  - pose proof (handled_HandleEventAndContinue e (with_queue q w)) as Hh.
    destruct (HandleEventAndContinue e (with_queue q w)) as [w' continue].
    simpl in Hh. destruct (handled_calls _ _ Hh) as (l1 & t1 & c1).
    change (trace (with_queue q w)) with (trace w) in t1.
    destruct continue; [|exists l1; split; assumption].
    destruct (IH w') as (l2 & t2 & c2).
    exists (l1 ++ l2). split.
    + rewrite t2, t1. symmetry. apply app_assoc.
    + unfold registry_calls_only in *. rewrite forallb_app, c1, c2. reflexivity.
Qed.


Lemma dispatch_queue_step (e : SDL_Event) (q : list SDL_Event) (w : World) :
  is_stop_event w e = false ->
  exists w', dispatch_queue (e :: q) w = dispatch_queue q w' /\
             frame w w' /\ sdl_queue (sdl w') = q.
Proof.
  intros Hns. simpl.
  pose proof (HandleEventAndContinue_continue e (with_queue q w)) as [Hc _].
  pose proof (handled_HandleEventAndContinue e (with_queue q w)) as Hh.
  change (is_stop_event (with_queue q w) e) with (is_stop_event w e) in Hc.
  rewrite Hns in Hc.
  destruct (HandleEventAndContinue e (with_queue q w)) as [w' continue].
  simpl in Hc, Hh. subst continue. exists w'. split; [reflexivity|]. split.
  - eapply frame_trans; [apply frame_with_queue|apply (handled_frame _ _ Hh)].
  - rewrite (handled_sdl _ _ Hh). reflexivity.
Qed.


Lemma dispatch_queue_stop_behind (q1 : list SDL_Event) : forall (q2 : list SDL_Event)
    (e : SDL_Event) (w : World),
  Forall (fun e' => is_stop_event w e' = false) q1 ->
  is_stop_event w e = true ->
  snd (dispatch_queue (q1 ++ e :: q2) w) = false /\
  sdl_queue (sdl (fst (dispatch_queue (q1 ++ e :: q2) w))) = q2.
Proof.
  induction q1 as [|a q1 IH]; intros q2 e w Hall Hstop.
  - simpl.
    pose proof (HandleEventAndContinue_continue e (with_queue q2 w)) as (_ & Hs & _).
    rewrite (Hs Hstop). split; reflexivity.
  - inversion Hall as [|a' q' Ha Hrest]; subst.
    change ((a :: q1) ++ e :: q2) with (a :: (q1 ++ e :: q2)).
    destruct (dispatch_queue_step a (q1 ++ e :: q2) w Ha) as (w' & -> & F & _).
    apply IH.
    + eapply Forall_impl; [|exact Hrest].
      intros b Hb. rewrite (is_stop_event_frame _ _ b F). exact Hb.
    + rewrite (is_stop_event_frame _ _ e F). exact Hstop.
Qed.



(** ** Populate and remove events *)

Lemma OpenAndAddDevice_accepting (index : Z) (w : World) :
  ci_accepting (g_controller_interface w) = true ->
  ci_devices (g_controller_interface (OpenAndAddDevice index w))
  = ci_devices (g_controller_interface w)
    ++ match SDL_GameControllerOpen (sdl w) index with
       | Some dev => [SDL_GC_Device (Device_Device (uninit_storage w) (sdl w) dev index)]
       | None => []
       end.
Proof.
  intros Hacc. destruct (SDL_GameControllerOpen (sdl w) index) as [dev|] eqn:Ho.
  - rewrite (OpenAndAddDevice_opened index w dev Ho). unfold AddDevice. simpl.
    rewrite Hacc. reflexivity.
  - unfold OpenAndAddDevice. rewrite Ho. symmetry. apply app_nil_r.
Qed.

Lemma fold_OpenAndAddDevice_accepting (l : list nat) : forall w,
  ci_accepting (g_controller_interface w) = true ->
  ci_devices (g_controller_interface
                (fold_left (fun acc k => OpenAndAddDevice (Z.of_nat k) acc) l w))
  = ci_devices (g_controller_interface w) ++ opened_adapters (uninit_storage w) (sdl w) l.
Proof.
  induction l as [|k l IH]; intros w Hacc; simpl.
  - symmetry. apply app_nil_r.
  - pose proof (handled_OpenAndAddDevice (Z.of_nat k) w) as Hh.
    rewrite IH.
    + rewrite (handled_sdl _ _ Hh), (frame_uninit _ _ (handled_frame _ _ Hh)).
      rewrite (OpenAndAddDevice_accepting _ _ Hacc). symmetry. apply app_assoc.
    + rewrite (frame_accepting _ _ (handled_frame _ _ Hh)). exact Hacc.
Qed.

Lemma PlatformPopulateDevices_accepting (w : World) :
  ci_accepting (g_controller_interface w) = true ->
  ci_devices (g_controller_interface (PlatformPopulateDevices populate_callback w))
  = filter of_other_source (ci_devices (g_controller_interface w))
    ++ opened_adapters (uninit_storage w) (sdl w)
         (seq 0 (List.length (sdl_joysticks (sdl w)))).
Proof.
  intros Hacc. unfold PlatformPopulateDevices, populate_callback.
  set (w2 := with_devices _ (log Call_PlatformPopulateDevices w)).
  destruct (populate_loop_unrolled (List.length (sdl_joysticks (sdl w2))) 0 w2 eq_refl)
    as [Hu _].
  change (Z.of_nat 0) with 0 in Hu. rewrite Hu.
  rewrite fold_OpenAndAddDevice_accepting by exact Hacc. reflexivity.
Qed.

Lemma filter_opened_adapters uninit s l :
  filter of_other_source (opened_adapters uninit s l) = [].
Proof.
  induction l as [|k l IH]; simpl; [reflexivity|].
  destruct (SDL_GameControllerOpen s (Z.of_nat k)); simpl; exact IH.
Qed.

Lemma filter_twice {A : Type} (f : A -> bool) (l : list A) :
  filter f (filter f l) = filter f l.
Proof.
  induction l as [|a l IH]; simpl; [reflexivity|].
  destruct (f a) eqn:E; simpl; [rewrite E, IH|rewrite IH]; reflexivity.
Qed.

(** X9. Handling a populate event while the registry accepts devices leaves
    the devices of other sources in place and replaces this source's devices
    by one adapter for every joystick index the driver opens, in index
    order.  Handling a second populate event right after gives the same
    device list: adapters are not duplicated. *)
Theorem populate_event_rebuilds_device_list (w : World) :
  custom_event_types_distinct w ->
  ci_accepting (g_controller_interface w) = true ->
  let w1 := fst (HandleEventAndContinue (populate_event w) w) in
  let w2 := fst (HandleEventAndContinue (populate_event w1) w1) in
  ci_devices (g_controller_interface w1)
  = filter of_other_source (ci_devices (g_controller_interface w))
    ++ opened_adapters (uninit_storage w) (sdl w)
         (seq 0 (List.length (sdl_joysticks (sdl w)))) /\
  ci_devices (g_controller_interface w2) = ci_devices (g_controller_interface w1) /\
  snd (HandleEventAndContinue (populate_event w) w) = true.
Proof.
  intros Hd Hacc w1 w2.
  assert (E1 : HandleEventAndContinue (populate_event w) w
               = (PlatformPopulateDevices populate_callback w, true))
    by (apply HandleEventAndContinue_populate; exact Hd).
  assert (Hw1 : w1 = PlatformPopulateDevices populate_callback w)
    by (unfold w1; rewrite E1; reflexivity).
  pose proof (handled_PlatformPopulateDevices w) as Hh. rewrite <- Hw1 in Hh.
  pose proof (handled_frame _ _ Hh) as F.
  assert (Hd1 : custom_event_types_distinct w1)
    by (eapply custom_event_types_distinct_frame; eassumption).
  assert (Hacc1 : ci_accepting (g_controller_interface w1) = true)
    by (rewrite (frame_accepting _ _ F); exact Hacc).
  assert (D1 : ci_devices (g_controller_interface w1)
               = filter of_other_source (ci_devices (g_controller_interface w))
                 ++ opened_adapters (uninit_storage w) (sdl w)
                      (seq 0 (List.length (sdl_joysticks (sdl w)))))
    by (rewrite Hw1; apply PlatformPopulateDevices_accepting; exact Hacc).
  split; [exact D1|]. split; [|rewrite E1; reflexivity].
  unfold w2. rewrite (HandleEventAndContinue_populate w1 Hd1). simpl fst.
  rewrite (PlatformPopulateDevices_accepting w1 Hacc1).
  rewrite (handled_sdl _ _ Hh), (frame_uninit _ _ F), D1.
  rewrite filter_app, filter_twice, filter_opened_adapters, app_nil_r. reflexivity.
Qed.

Lemma populate_event_rebuilds_device_list_witness :
  ci_devices (g_controller_interface
                (fst (HandleEventAndContinue (populate_event sample_running_world)
                        sample_running_world)))
  = filter of_other_source (ci_devices (g_controller_interface sample_running_world))
    ++ opened_adapters (uninit_storage sample_running_world) (sdl sample_running_world)
         (seq 0 (List.length (sdl_joysticks (sdl sample_running_world)))).
Proof.
  apply (proj1 (populate_event_rebuilds_device_list sample_running_world
                  ltac:(vm_compute; repeat split; discriminate) eq_refl)).
Defined.

Lemma filter_all {A : Type} (f : A -> bool) (l : list A) :
  forallb f l = true -> filter f l = l.
Proof.
  induction l as [|a l IH]; simpl; [reflexivity|].
  destruct (f a); simpl; [|discriminate]. intros H. rewrite (IH H). reflexivity.
Qed.

(** X10. A remove event removes exactly the adapters of this backend whose
    joystick has the event's instance id; devices of other sources always
    stay.  After an add event for a device the driver opens, a remove event
    with that device's instance id gives back the device list from before
    the add event, when no device already listed had that instance id. *)
Theorem remove_event_undoes_add_event (w : World) (index : Z) (dev : SDL_GameController) :
  ci_accepting (g_controller_interface w) = true ->
  SDL_GameControllerOpen (sdl w) index = Some dev ->
  forallb (fun c => negb (removed_device (sdl w) (SDL_JoystickInstanceID (sdl w) dev) c))
          (ci_devices (g_controller_interface w)) = true ->
  let removed which := {| e_type := SDL_CONTROLLERDEVICEREMOVED; e_which := which |} in
  let w1 := fst (HandleEventAndContinue (add_event index) w) in
  let w2 := fst (HandleEventAndContinue (removed (SDL_JoystickInstanceID (sdl w) dev)) w1) in
  (forall which,
     ci_devices (g_controller_interface (fst (HandleEventAndContinue (removed which) w)))
     = filter (fun c => negb (removed_device (sdl w) which c))
              (ci_devices (g_controller_interface w)) /\
     snd (HandleEventAndContinue (removed which) w) = true /\
     forall source,
       In (OtherDevice source) (ci_devices (g_controller_interface w)) ->
       In (OtherDevice source)
          (ci_devices (g_controller_interface
                         (fst (HandleEventAndContinue (removed which) w))))) /\
  ci_devices (g_controller_interface w1)
  = ci_devices (g_controller_interface w)
    ++ [SDL_GC_Device (Device_Device (uninit_storage w) (sdl w) dev index)] /\
  ci_devices (g_controller_interface w2) = ci_devices (g_controller_interface w).
Proof.
  intros Hacc Hopen Hfresh removed w1 w2.
  assert (Hrem : forall which w0,
             HandleEventAndContinue (removed which) w0
             = (RemoveDevice which (removed_device (sdl w0) which) w0, true))
    by reflexivity.
  assert (Hw1 : w1 = AddDevice (Device_Device (uninit_storage w) (sdl w) dev index) w).
  { unfold w1. change (HandleEventAndContinue (add_event index) w)
      with (OpenAndAddDevice index w, true).
    simpl fst. apply OpenAndAddDevice_opened. exact Hopen. }
  assert (D1 : ci_devices (g_controller_interface w1)
               = ci_devices (g_controller_interface w)
                 ++ [SDL_GC_Device (Device_Device (uninit_storage w) (sdl w) dev index)]).
  { rewrite Hw1. unfold AddDevice. simpl. rewrite Hacc. reflexivity. }
  split; [|split; [exact D1|]].
  - intros which. rewrite Hrem. simpl fst. simpl snd.
    split; [reflexivity|]. split; [reflexivity|].
    intros source Hin. unfold RemoveDevice. simpl.
    apply filter_In. split; [exact Hin|reflexivity].
  - unfold w2. rewrite Hrem. simpl fst. unfold RemoveDevice. simpl ci_devices.
    change (ci_devices (g_controller_interface
                          (log (Call_RemoveDevice (SDL_JoystickInstanceID (sdl w) dev)) w1)))
      with (ci_devices (g_controller_interface w1)).
    rewrite D1.
    assert (Hs : sdl w1 = sdl w) by (rewrite Hw1; apply handled_AddDevice).
    rewrite Hs, filter_app, (filter_all _ _ Hfresh).
    cbn [filter removed_device].
    change (Device_GetSDLJoystick (Device_Device (uninit_storage w) (sdl w) dev index))
      with dev.
    rewrite Z.eqb_refl. simpl. apply app_nil_r.
Qed.

Lemma remove_event_undoes_add_event_witness :
  ci_devices (g_controller_interface
                (fst (HandleEventAndContinue
                        {| e_type := SDL_CONTROLLERDEVICEREMOVED;
                           e_which := SDL_JoystickInstanceID (sdl sample_running_world) 0%nat |}
                        (fst (HandleEventAndContinue (add_event 0) sample_running_world)))))
  = ci_devices (g_controller_interface sample_running_world).
Proof.
  apply (proj2 (proj2 (remove_event_undoes_add_event sample_running_world 0 0%nat
                         eq_refl eq_refl eq_refl))).
Defined.

(** ** The life cycle of the coordinator *)

Lemma hotplug_thread_startup_thread (w : World) :
  SDL_USEREVENT <= to_Uint32 (sdl_register_result (sdl w)) ->
  s_hotplug_thread (hotplug_thread_startup w) = Finished \/
  (s_hotplug_thread (hotplug_thread_startup w) = InWaitLoop /\
   custom_event_types_distinct (hotplug_thread_startup w)).
Proof.
  intros Huser. unfold hotplug_thread_startup.
  destruct (sdl_init_result (sdl w) =? 0); [left; reflexivity|].
  set (w4 := log (Call_SDL_SetHint SDL_HINT_JOYSTICK_HIDAPI_JOY_CONS "1") _).
  assert (Hsdl : sdl w4 = sdl w) by (subst w4; destruct (_ && _); reflexivity).
  clearbody w4. rewrite Hsdl.
  set (start := to_Uint32 (sdl_register_result (sdl w))) in *.
  destruct (Z.eqb_spec start (to_Uint32 (-1))) as [E|N]; [left; reflexivity|].
  set (w5 := with_event_types start (to_Uint32 (start + 1)) w4).
  assert (Hd5 : custom_event_types_distinct w5).
  { unfold custom_event_types_distinct, w5. simpl.
    pose proof (to_Uint32_succ _ N) as Hs. fold start in Hs. rewrite Hs.
    unfold SDL_USEREVENT, SDL_CONTROLLERDEVICEADDED, SDL_CONTROLLERDEVICEREMOVED in *.
    lia. }
  pose proof (frame_dispatch_queue (sdl_queue (sdl w5)) w5) as F6.
  destruct (dispatch_queue (sdl_queue (sdl w5)) w5) as [w6 continue].
  simpl in F6. destruct continue; [right|left; reflexivity].
  split; [reflexivity|].
  change (custom_event_types_distinct w6).
  apply (custom_event_types_distinct_frame w5); assumption.
Qed.

Lemma join_resets (w w' : World) : join w = Some w' -> s_hotplug_thread w' = NotStarted.
Proof.
  unfold join. destruct (s_hotplug_thread (hotplug_thread_run w)); try discriminate.
  intros H. injection H as <-. reflexivity.
Qed.

(** X11. [Init] always leaves a joinable thread handle, also when the
    start-up failed and the thread has already returned; a second [Init]
    without [DeInit] therefore terminates the process.  [DeInit] after
    [Init] always returns and resets the handle (the custom event types
    being allocated at or above [SDL_USEREVENT]); after it
    [PopulateDevices] does nothing and [Init] can run again. *)
Theorem Init_then_DeInit (w : World) :
  joinable (s_hotplug_thread w) = false ->
  SDL_USEREVENT <= to_Uint32 (sdl_register_result (sdl w)) ->
  exists w1,
    Init w = Some w1 /\
    joinable (s_hotplug_thread w1) = true /\
    Init w1 = None /\
    exists w2,
      DeInit w1 = Some w2 /\
      s_hotplug_thread w2 = NotStarted /\
      PopulateDevices w2 = w2 /\
      DeInit w2 = Some w2 /\
      Init w2 = Some (hotplug_thread_startup w2).
Proof.
  intros Hj Huser. exists (hotplug_thread_startup w).
  assert (Hjoin : joinable (s_hotplug_thread (hotplug_thread_startup w)) = true).
  { destruct (hotplug_thread_startup_thread w Huser) as [H|[H _]]; rewrite H; reflexivity. }
  split; [unfold Init; rewrite Hj; reflexivity|].
  split; [exact Hjoin|]. split; [unfold Init; rewrite Hjoin; reflexivity|].
  set (w1 := hotplug_thread_startup w) in *.
  assert (Hd : DeInit w1 = join (SDL_PushEvent (stop_event w1) w1))
    by (unfold DeInit; rewrite Hjoin; reflexivity).
  assert (Hret : exists w2, join (SDL_PushEvent (stop_event w1) w1) = Some w2).
  { apply join_returns.
    destruct (hotplug_thread_startup_thread w Huser) as [H|[H Hdist]]; fold w1 in H.
    - left. exact H.
    - right. split; [exact H|]. split; [exact Hdist|].
      exists (sdl_queue (sdl w1)). reflexivity. }
  destruct Hret as [w2 Hw2]. exists w2.
  pose proof (join_resets _ _ Hw2) as Hn.
  split; [rewrite Hd; exact Hw2|]. split; [exact Hn|].
  unfold PopulateDevices, DeInit, Init. rewrite Hn. repeat split.
Qed.

Lemma Init_then_DeInit_witness :
  exists w1,
    Init (sample_world 0 [add_event 0]) = Some w1 /\
    joinable (s_hotplug_thread w1) = true /\
    Init w1 = None /\
    exists w2,
      DeInit w1 = Some w2 /\
      s_hotplug_thread w2 = NotStarted /\
      PopulateDevices w2 = w2 /\
      DeInit w2 = Some w2 /\
      Init w2 = Some (hotplug_thread_startup w2).
Proof.
  apply (Init_then_DeInit (sample_world 0 [add_event 0]) eq_refl
           ltac:(vm_compute; discriminate)).
Defined.

Lemma is_stop_event_stop_event (w : World) :
  custom_event_types_distinct w -> is_stop_event w (stop_event w) = true.
Proof.
  intros (Ha & Hr & Hp & _). unfold is_stop_event, stop_event. simpl.
  apply Z.eqb_neq in Ha, Hr, Hp. rewrite Ha, Hr, Hp, Z.eqb_refl. reflexivity.
Qed.

(** Event handling does not look at the queue: it commutes with replacing
    the queue. *)
Lemma AddDevice_with_queue (q : list SDL_Event) (d : Device) (w : World) :
  AddDevice d (with_queue q w) = with_queue q (AddDevice d w).
Proof.
  unfold AddDevice.
  change (ci_accepting (g_controller_interface (log (Call_AddDevice d) (with_queue q w))))
    with (ci_accepting (g_controller_interface w)).
  change (ci_accepting (g_controller_interface (log (Call_AddDevice d) w)))
    with (ci_accepting (g_controller_interface w)).
  destruct (ci_accepting (g_controller_interface w)); reflexivity.
Qed.

Lemma OpenAndAddDevice_with_queue (q : list SDL_Event) (index : Z) (w : World) :
  OpenAndAddDevice index (with_queue q w) = with_queue q (OpenAndAddDevice index w).
Proof.
  unfold OpenAndAddDevice.
  change (SDL_GameControllerOpen (sdl (with_queue q w)) index)
    with (SDL_GameControllerOpen (sdl w) index).
  destruct (SDL_GameControllerOpen (sdl w) index) as [dev|]; [|reflexivity].
  change (uninit_storage (with_queue q w)) with (uninit_storage w).
  rewrite (Device_Device_joysticks (uninit_storage w) (sdl (with_queue q w)) (sdl w)
             dev index eq_refl).
  generalize (Device_Device (uninit_storage w) (sdl w) dev index) as gc. intros gc.
  unfold add_if_has_controls.
  destruct (_ || _); [apply AddDevice_with_queue|reflexivity].
Qed.

Lemma populate_loop_with_queue (q : list SDL_Event) (fuel : nat) : forall i w,
  populate_loop fuel i (with_queue q w) = with_queue q (populate_loop fuel i w).
Proof.
  induction fuel as [|fuel IH]; intros i w; [reflexivity|].
  cbn [populate_loop].
  change (SDL_NumJoysticks (sdl (with_queue q w))) with (SDL_NumJoysticks (sdl w)).
  destruct (i <? SDL_NumJoysticks (sdl w)); [|reflexivity].
  rewrite OpenAndAddDevice_with_queue. apply IH.
Qed.

Lemma HandleEventAndContinue_with_queue (q : list SDL_Event) (e : SDL_Event) (w : World) :
  HandleEventAndContinue e (with_queue q w)
  = (with_queue q (fst (HandleEventAndContinue e w)), snd (HandleEventAndContinue e w)).
Proof.
  unfold HandleEventAndContinue.
  change (s_populate_event_type (with_queue q w)) with (s_populate_event_type w).
  change (s_stop_event_type (with_queue q w)) with (s_stop_event_type w).
  destruct (e_type e =? SDL_CONTROLLERDEVICEADDED).
  { simpl fst. simpl snd. rewrite OpenAndAddDevice_with_queue. reflexivity. }
  destruct (e_type e =? SDL_CONTROLLERDEVICEREMOVED); [reflexivity|].
  destruct (e_type e =? s_populate_event_type w).
  { simpl fst. simpl snd. f_equal. unfold PlatformPopulateDevices, populate_callback.
    apply (populate_loop_with_queue q (List.length (sdl_joysticks (sdl w))) 0
             (with_devices
                (filter (fun c => negb (String.eqb (CoreDevice_GetSource c) Device_GetSource))
                        (ci_devices (g_controller_interface w)))
                (log Call_PlatformPopulateDevices w))). }
  destruct (e_type e =? s_stop_event_type w); reflexivity.
Qed.

(** Dispatching a queue with a stop event appended does to the world what
    dispatching the queue alone does, and then ends with the queue empty. *)
Lemma dispatch_queue_then_stop (q : list SDL_Event) : forall (w : World) (x y : list SDL_Event)
    (stop : SDL_Event),
  Forall (fun e => is_stop_event w e = false) q ->
  is_stop_event w stop = true ->
  fst (dispatch_queue (q ++ [stop]) (with_queue x w))
  = with_queue [] (fst (dispatch_queue q (with_queue y w))) /\
  snd (dispatch_queue q (with_queue y w)) = true.
Proof.
  induction q as [|a q IH]; intros w x y stop Hall Hstop.
  - simpl.
    pose proof (HandleEventAndContinue_continue stop (with_queue [] (with_queue x w)))
      as (_ & Hs & _).
    rewrite (Hs Hstop). split; reflexivity.
  - inversion Hall as [|a' q' Ha Hrest]; subst.
    change ((a :: q) ++ [stop]) with (a :: (q ++ [stop])).
    cbn [dispatch_queue].
    change (with_queue (q ++ [stop]) (with_queue x w)) with (with_queue (q ++ [stop]) w).
    change (with_queue q (with_queue y w)) with (with_queue q w).
    rewrite (HandleEventAndContinue_with_queue (q ++ [stop]) a w).
    rewrite (HandleEventAndContinue_with_queue q a w).
    pose proof (HandleEventAndContinue_continue a w) as [Hc _].
    pose proof (frame_HandleEventAndContinue a w) as F.
    rewrite Ha in Hc. simpl in Hc. rewrite Hc.
    apply IH.
    + eapply Forall_impl; [|exact Hrest].
      intros b Hb. rewrite (is_stop_event_frame _ _ b F). exact Hb.
    + rewrite (is_stop_event_frame _ _ stop F). exact Hstop.
Qed.

(** X12. [DeInit] on a coordinator in its wait loop does not drop what is
    queued.  The world it returns is the world the thread reaches by
    dispatching every pending event in order (none of them a stop event),
    with the queue emptied, [SDL_Quit] called and the handle reset: the
    registry's device list is the one after the pending events, the trace
    is the trace after the pending events followed by [SDL_Quit], and no
    error is logged. *)
Theorem DeInit_dispatches_pending_events (w : World) :
  s_hotplug_thread w = InWaitLoop ->
  custom_event_types_distinct w ->
  Forall (fun e => is_stop_event w e = false) (sdl_queue (sdl w)) ->
  let w0 := SDL_PushEvent (stop_event w) w in
  let pending := dispatch_queue (sdl_queue (sdl w)) w0 in
  snd pending = true /\
  DeInit w
  = Some (with_thread NotStarted (hotplug_thread_return (with_queue [] (fst pending)))) /\
  (forall w', DeInit w = Some w' ->
     g_controller_interface w' = g_controller_interface (fst pending) /\
     trace w' = trace (fst pending) ++ [Call_SDL_Quit] /\
     sdl_queue (sdl w') = [] /\
     s_hotplug_thread w' = NotStarted /\
     error_logs (trace w') = error_logs (trace w)).
Proof.
  intros Ht Hd Hall w0 pending.
  assert (Hstop : is_stop_event w (stop_event w) = true)
    by (apply is_stop_event_stop_event; exact Hd).
  pose proof (dispatch_queue_stop_behind (sdl_queue (sdl w)) [] (stop_event w) w0 Hall Hstop)
    as [Hfalse _].
  assert (Hboth : fst (dispatch_queue (sdl_queue (sdl w) ++ [stop_event w]) w0)
                  = with_queue [] (fst pending) /\ snd pending = true).
  { unfold pending.
    destruct (dispatch_queue_then_stop (sdl_queue (sdl w)) (log (Call_SDL_PushEvent (stop_event w)) w)
                (sdl_queue (sdl w) ++ [stop_event w]) (sdl_queue (sdl w) ++ [stop_event w])
                (stop_event w) Hall Hstop) as [H1 H2].
    split; [exact H1|exact H2]. }
  destruct Hboth as [Hf Hs].
  assert (HD : DeInit w
               = Some (with_thread NotStarted
                         (hotplug_thread_return (with_queue [] (fst pending))))).
  { unfold DeInit. rewrite Ht. simpl negb. cbv iota. fold (stop_event w). fold w0.
    unfold join, hotplug_thread_run.
    change (s_hotplug_thread w0) with (s_hotplug_thread w). rewrite Ht.
    change (sdl_queue (sdl w0)) with (sdl_queue (sdl w) ++ [stop_event w]).
    destruct (dispatch_queue (sdl_queue (sdl w) ++ [stop_event w]) w0) as [w1 continue].
    simpl in Hfalse, Hf. subst continue w1. reflexivity. }
  split; [exact Hs|]. split; [exact HD|].
  intros w' Hw'. rewrite HD in Hw'. injection Hw' as <-.
  split; [reflexivity|]. split; [reflexivity|]. split; [reflexivity|].
  split; [reflexivity|].
  change (trace (with_thread NotStarted (hotplug_thread_return (with_queue [] (fst pending)))))
    with (trace (fst pending) ++ [Call_SDL_Quit]).
  destruct (dispatch_queue_calls (sdl_queue (sdl w)) w0) as (l & Htr & Hl).
  fold pending in Htr. rewrite Htr.
  change (trace w0) with (trace w ++ [Call_SDL_PushEvent (stop_event w)]).
  rewrite !error_logs_app, (error_logs_registry_calls l Hl). simpl.
  rewrite !app_nil_r. reflexivity.
Qed.

Lemma DeInit_dispatches_pending_events_witness :
  snd (dispatch_queue (sdl_queue (sdl sample_pending_world))
         (SDL_PushEvent (stop_event sample_pending_world) sample_pending_world)) = true /\
  DeInit sample_pending_world
  = Some (with_thread NotStarted
            (hotplug_thread_return
               (with_queue []
                  (fst (dispatch_queue (sdl_queue (sdl sample_pending_world))
                          (SDL_PushEvent (stop_event sample_pending_world)
                             sample_pending_world)))))).
Proof.
  destruct (DeInit_dispatches_pending_events sample_pending_world eq_refl
              ltac:(vm_compute; repeat split; discriminate)
              ltac:(repeat constructor)) as (H1 & H2 & _).
  split; [exact H1|exact H2].
Defined.

(** The pending add event is handled before the thread stops: the adapter
    for device 0 is in the device list when [DeInit] returns. *)
Lemma DeInit_pending_add_sample :
  option_map (fun w' => (map CoreDevice_GetSource (ci_devices (g_controller_interface w')),
                         sdl_queue (sdl w'), s_hotplug_thread w'))
    (DeInit sample_pending_world)
  = Some (["XInput"; "SDL_gamecontroller"], [], NotStarted).
Proof. vm_compute. reflexivity. Qed.


